(** * The process supervisor of the portfolio engine (api_server.py)

    A shallow embedding of the supervisor's file and process handling:
    the text primitives it relies on, the values [json] produces, the
    store of named files, the process table, and the endpoints
    [configure], [audit-log], [stop] and [restart] written over them. *)

From Stdlib Require Import ZArith String Ascii List Floats DecimalString Lia.
From Stdlib Require DecimalPos.
From stdpp Require Import base option list gmap strings.

Set Warnings "-inexact-float".

Open Scope string_scope.
Open Scope Z_scope.

(** ** Text primitives (Python [str]) *)

Module Text.

(** [str.isspace] on the code points below 256. *)
Definition is_space (c : ascii) : bool :=
  let n := N_of_ascii c in
  (((9 <=? n) && (n <=? 13)) || ((28 <=? n) && (n <=? 32))
   || (n =? 133) || (n =? 160))%N.

Fixpoint lstrip (s : string) : string :=
  match s with
  | EmptyString => EmptyString
  | String c r => if is_space c then lstrip r else s
  end.

Fixpoint rstrip (s : string) : string :=
  match s with
  | EmptyString => EmptyString
  | String c r =>
      match rstrip r with
      | EmptyString => if is_space c then EmptyString else String c EmptyString
      | r' => String c r'
      end
  end.

(** [s.strip()] *)
Definition strip (s : string) : string := rstrip (lstrip s).

(** [s.startswith(p)] *)
Definition startswith (p s : string) : bool := String.prefix p s.

(** [sub in s] *)
Fixpoint contains (sub s : string) : bool :=
  String.prefix sub s ||
  match s with
  | EmptyString => false
  | String _ r => contains sub r
  end.

(** [sep.join(parts)] *)
Definition join (sep : string) (parts : list string) : string :=
  String.concat sep parts.

Definition LF : ascii := ascii_of_N 10.
Definition CR : ascii := ascii_of_N 13.

(** What a text-mode reader sees of a file: with the default
    [newline=None] the sequences CR LF and a lone CR arrive as LF. *)
Fixpoint universal_newlines (s : string) : string :=
  match s with
  | EmptyString => EmptyString
  | String c r =>
      if Ascii.eqb c CR then
        match r with
        | String c' r' =>
            if Ascii.eqb c' LF then String LF (universal_newlines r')
            else String LF (universal_newlines r)
        | EmptyString => String LF EmptyString
        end
      else String c (universal_newlines r)
  end.

(** Cut a text after every LF, keeping the terminator on each line; [cur]
    is the line being read. *)
Fixpoint split_lines (cur : string) (s : string) : list string :=
  match s with
  | EmptyString => if String.eqb cur "" then [] else [cur]
  | String c r =>
      if Ascii.eqb c LF then (cur +:+ String LF "") :: split_lines "" r
      else split_lines (cur +:+ String c "") r
  end.

(** [f.readlines()] on a file opened with mode ['r']. *)
Definition readlines (content : string) : list string :=
  split_lines "" (universal_newlines content).

(** [str(n)] for an integer. *)
Definition str_int (n : Z) : string := NilZero.string_of_int (Z.to_int n).

Definition digit_of (c : ascii) : option Z :=
  let n := N_of_ascii c in
  if ((48 <=? n) && (n <=? 57))%N then Some (Z.of_N n - 48) else None.

(** Digits of a decimal literal; a single underscore may sit between two
    digits. [acc] is the value read so far, [after_digit] says whether
    the previous character was a digit. *)
Fixpoint digits (acc : Z) (after_digit : bool) (s : string) : option Z :=
  match s with
  | EmptyString => if after_digit then Some acc else None
  | String c r =>
      match digit_of c with
      | Some d => digits (10 * acc + d) true r
      | None =>
          if Ascii.eqb c "_" && after_digit then
            match r with
            | EmptyString => None
            | _ => digits acc false r
            end
          else None
      end
  end.

(** [int(s)]: surrounding blanks, an optional sign, decimal digits;
    [None] stands for [ValueError]. *)
Definition py_int (s : string) : option Z :=
  match strip s with
  | String "-" r => Z.opp <$> digits 0 false r
  | String "+" r => digits 0 false r
  | r => digits 0 false r
  end.

End Text.

(** ** Values and exceptions *)

(** The Python values [json.loads] can produce. A dict keeps its items in
    insertion order; its keys are distinct. *)
#[warnings="-register-all"]
Inductive pyval :=
  | PNone
  | PBool (b : bool)
  | PInt (n : Z)
  | PFloat (x : float)
  | PStr (s : string)
  | PList (items : list pyval)
  | PDict (items : list (string * pyval)).

(** [d.get(key)] on the items of a dict. *)
Fixpoint dict_lookup (key : string) (items : list (string * pyval)) : option pyval :=
  match items with
  | [] => None
  | (k, v) :: rest => if String.eqb k key then Some v else dict_lookup key rest
  end.

#[warnings="-register-all"]
Inductive exn :=
  | JSONDecodeError
  | ValueError
  | TypeError
  | AttributeError
  | OSError
  | NoSuchProcess
  | AccessDenied
  | TimeoutExpired
  | OverflowError
  | RecursionError
  | Exception (msg : string) (cause : option exn)
  | HTTPException (status_code : Z) (detail : string) (cause : option exn)
  | RequestValidationError (refused : list string).

(** The result of running a piece of code: a value, or a raised exception. *)
Inductive outcome (A : Type) :=
  | Return (a : A)
  | Raise (e : exn).
Arguments Return {A} a.
Arguments Raise {A} e.

#[global] Instance outcome_ret : MRet outcome := @Return.
#[global] Instance outcome_bind : MBind outcome := λ A B f m,
  match m with
  | Return a => f a
  | Raise e => Raise e
  end.

(** [try: m except Exception as e: h e] *)
Definition try_except {A} (m : outcome A) (h : exn → outcome A) : outcome A :=
  match m with
  | Return a => Return a
  | Raise e => h e
  end.

(** ** The store of named files *)

(** A path names the text of a readable regular file. Directories,
    permissions and undecodable bytes are not modelled, and no open file
    descriptor is part of the store. *)
Definition os_path_exists (fs : gmap string string) (path : pyval) : outcome bool :=
  match path with
  | PStr p => Return (bool_decide (is_Some (fs !! p)))
  | PInt _ | PBool _ => Return false
  | PNone | PFloat _ | PList _ | PDict _ => Raise TypeError
  end.

(** [open(path, 'r')] followed by reading the whole file. *)
Definition open_read (fs : gmap string string) (path : pyval) : outcome string :=
  match path with
  | PStr p =>
      match fs !! p with
      | Some content => Return (Text.universal_newlines content)
      | None => Raise OSError
      end
  | PInt _ | PBool _ => Raise OSError
  | PNone | PFloat _ | PList _ | PDict _ => Raise TypeError
  end.

(** [lines[start:]] *)
Definition slice_from {A} (start : Z) (l : list A) : list A :=
  let n := Z.of_nat (length l) in
  let s := if start <? 0 then Z.max 0 (start + n) else Z.min start n in
  drop (Z.to_nat s) l.

(** ** Processes and the world the supervisor acts on *)

Inductive signal_reply := Delivered | Denied.
Inductive wait_reply := Exited | StillRunning.

(** How the operating system answers for one process: what
    [terminate()], [wait(timeout)] and [kill()] do when called on it.
    [Denied] raises [AccessDenied]; [StillRunning] raises
    [TimeoutExpired]. *)
Record behaviour := Behaviour {
  on_terminate : signal_reply;
  on_wait : wait_reply;
  on_kill : signal_reply
}.

(** An entry of the process table; [cmdline = None] when reading the
    command line is refused, as it is for a zombie. *)
Record process := Process {
  cmdline : option (list string);
  replies : behaviour
}.

(** What the next [subprocess.Popen] does: fail, start a child that is
    still there when looked for, or start one that has exited by then.
    Nothing waits for a child that exited, so it stays in the table as a
    zombie, whose command line cannot be read. *)
Inductive popen_reply :=
  | PopenRaises
  | PopenRuns (pid : Z) (b : behaviour)
  | PopenExits (pid : Z).

(** The calls the supervisor makes, in the order it makes them. *)
Inductive event :=
  | EvTerminate (pid : Z)
  | EvWait (pid : Z) (timeout : Z)
  | EvKill (pid : Z)
  | EvPopen (argv : list string)
  | EvWrite (path : string)
  | EvRemove (path : string)
  | EvSleep (seconds : Z).

(** [procs] lists the table in the order [psutil.process_iter] yields it
    (ascending pid). The writing side runs on a platform whose line
    separator is LF, so text is stored as written. *)
Record world := World {
  files : gmap string string;
  procs : list (Z * process);
  popen_script : list popen_reply;
  events : list event
}.

Definition set_files (f : gmap string string → gmap string string) (w : world) : world :=
  World (f (files w)) (procs w) (popen_script w) (events w).
Definition set_procs (f : list (Z * process) → list (Z * process)) (w : world) : world :=
  World (files w) (f (procs w)) (popen_script w) (events w).
Definition set_popen_script (s : list popen_reply) (w : world) : world :=
  World (files w) (procs w) s (events w).
Definition add_event (ev : event) (w : world) : world :=
  World (files w) (procs w) (popen_script w) (events w ++ [ev]).

(** Code that acts on the world and may raise. *)
Definition M (A : Type) : Type := world → outcome A * world.

Definition ret {A} (a : A) : M A := λ w, (Return a, w).
Definition raise {A} (e : exn) : M A := λ w, (Raise e, w).
Definition bind {A B} (m : M A) (k : A → M B) : M B := λ w,
  match m w with
  | (Return a, w') => k a w'
  | (Raise e, w') => (Raise e, w')
  end.
(** [try: m except Exception as e: h e] *)
Definition catch {A} (m : M A) (h : exn → M A) : M A := λ w,
  match m w with
  | (Return a, w') => (Return a, w')
  | (Raise e, w') => h e w'
  end.
Definition lift {A} (f : world → outcome A) : M A := λ w, (f w, w).
Definition emit (ev : event) : M unit := λ w, (Return tt, add_event ev w).

Declare Scope sup_scope.
Delimit Scope sup_scope with sup.
Notation "x <- m ;; k" := (bind m (λ x, k))
  (at level 100, m at next level, right associativity) : sup_scope.
Notation "m ;; k" := (bind m (λ _, k))
  (at level 100, right associativity) : sup_scope.

Definition project_pid_file : string := "project_service.pid".

Fixpoint find_process (pid : Z) (table : list (Z * process)) : option process :=
  match table with
  | [] => None
  | (q, p) :: rest => if q =? pid then Some p else find_process pid rest
  end.

Definition remove_process (pid : Z) (table : list (Z * process)) : list (Z * process) :=
  filter (λ e, e.1 ≠ pid) table.

Fixpoint insert_process (pid : Z) (p : process) (table : list (Z * process)) : list (Z * process) :=
  match table with
  | [] => [(pid, p)]
  | (q, p') :: rest =>
      if pid <? q then (pid, p) :: table
      else if pid =? q then (pid, p) :: rest
      else (q, p') :: insert_process pid p rest
  end.

(** A pid is a signed integer of 32 bits; the system call that looks a
    pid up refuses a number beyond them. *)
Definition pid_limit : Z := 2 ^ 31.

(** [psutil.pid_exists(pid)] *)
Definition pid_exists (table : list (Z * process)) (pid : Z) : outcome bool :=
  if pid <? 0 then Return false
  else if pid_limit <=? pid then Raise OverflowError
  else Return (bool_decide (is_Some (find_process pid table))).

(** [psutil.Process(pid)] *)
Definition psutil_Process (table : list (Z * process)) (pid : Z) : outcome process :=
  match find_process pid table with
  | Some p => Return p
  | None => Raise NoSuchProcess
  end.

(** [process.cmdline()] *)
Definition process_cmdline (p : process) : outcome (list string) :=
  match cmdline p with
  | Some argv => Return argv
  | None => Raise AccessDenied
  end.

(** The loop over [psutil.process_iter(['pid', 'name', 'cmdline'])]: the
    first process one of whose arguments mentions [project.py]. *)
Fixpoint process_iter_find (table : list (Z * process)) : option Z :=
  match table with
  | [] => None
  | (pid, p) :: rest =>
      match cmdline p with
      | Some (arg :: args) =>
          if existsb (Text.contains "project.py") (arg :: args) then Some pid
          else process_iter_find rest
      | _ => process_iter_find rest
      end
  end.

(** The body of [is_project_running]: the process named by the pid file
    when its command line mentions [project.py], else the first process
    the scan finds. *)
Definition is_project_running_body (w : world) : outcome (bool * option Z) :=
  by_pid_file ←
    (if bool_decide (is_Some (files w !! project_pid_file)) then
       text ← open_read (files w) (PStr project_pid_file);
       pid ← from_option Return (Raise ValueError) (Text.py_int (Text.strip text));
       known ← pid_exists (procs w) pid;
       if (known : bool) then
         process ← psutil_Process (procs w) pid;
         argv ← process_cmdline process;
         Return (if Text.contains "project.py" (Text.join " " argv)
                 then Some pid else None)
       else Return None
     else Return None);
  match by_pid_file with
  | Some pid => Return (true, Some pid)
  | None =>
      match process_iter_find (procs w) with
      | Some pid => Return (true, Some pid)
      | None => Return (false, None)
      end
  end.

Definition is_project_running (w : world) : bool * option Z :=
  match is_project_running_body w with
  | Return r => r
  | Raise _ => (false, None)
  end.

(** [process.terminate()], [process.wait(timeout)] and [process.kill()].
    A process that exited or was killed leaves the table: neither the pid
    file check nor the scan finds it again. What is left of a killed
    child until it is reaped is not kept: the scan passes over a process
    without a command line, and [stop] has removed the pid file by
    then. *)
Definition terminate (pid : Z) (p : process) : M unit :=
  (emit (EvTerminate pid) ;;
   match on_terminate (replies p) with
   | Delivered => ret tt
   | Denied => raise AccessDenied
   end)%sup.

Definition wait (pid : Z) (p : process) (timeout : Z) : M unit :=
  (emit (EvWait pid timeout) ;;
   match on_wait (replies p) with
   | Exited => λ w, (Return tt, set_procs (remove_process pid) w)
   | StillRunning => raise TimeoutExpired
   end)%sup.

Definition kill (pid : Z) (p : process) : M unit :=
  (emit (EvKill pid) ;;
   match on_kill (replies p) with
   | Delivered => λ w, (Return tt, set_procs (remove_process pid) w)
   | Denied => raise AccessDenied
   end)%sup.

(** [os.remove(path)] *)
Definition os_remove (path : string) : M unit :=
  (emit (EvRemove path) ;;
   λ w, match files w !! path with
        | Some _ => (Return tt, set_files (delete path) w)
        | None => (Raise OSError, w)
        end)%sup.

(** [with open(path, 'w') as f: f.write(content)] *)
Definition write_file (path content : string) : M unit :=
  (emit (EvWrite path) ;;
   λ w, (Return tt, set_files (insert path content) w))%sup.

(** [await asyncio.sleep(seconds)]; the world changes only through the
    supervisor's own calls and the scripted answers to them. *)
Definition sleep (seconds : Z) : M unit := emit (EvSleep seconds).

(** The table entry of a child that exited and was not waited for. *)
Definition zombie : process :=
  Process None (Behaviour Delivered Exited Delivered).

(** [subprocess.Popen(argv, ...)], answering with the child's pid. *)
Definition Popen (argv : list string) : M Z :=
  (emit (EvPopen argv) ;;
   λ w, match popen_script w with
        | [] => (Raise OSError, w)
        | PopenRaises :: script => (Raise OSError, set_popen_script script w)
        | PopenRuns pid b :: script =>
            (Return pid,
             set_procs (insert_process pid (Process (Some argv) b))
               (set_popen_script script w))
        | PopenExits pid :: script =>
            (Return pid,
             set_procs (insert_process pid zombie) (set_popen_script script w))
        end)%sup.

Definition stop_project_service : M bool :=
  (status <- lift (λ w, Return (is_project_running w)) ;;
   match status with
   | (_, None) => ret true
   | (running, Some pid) =>
       if negb running || (pid =? 0) then ret true
       else
         catch
           (process <- lift (λ w, psutil_Process (procs w) pid) ;;
            terminate pid process ;;
            catch (wait pid process 10)
              (λ e, match e with
                    | TimeoutExpired => kill pid process
                    | _ => raise e
                    end) ;;
            found <- lift (λ w, os_path_exists (files w) (PStr project_pid_file)) ;;
            (if found then os_remove project_pid_file else ret tt) ;;
            ret true)
           (λ _, ret false)
   end)%sup.

Definition start_project_service : M Z :=
  catch
    (process <- Popen ["python"; "project.py"] ;;
     write_file project_pid_file (Text.str_int process) ;;
     ret process)%sup
    (λ e, raise (Exception "Failed to start project.py: " (Some e))).

(** ** The configure request *)

(** A field of a request body: left out, or given with the JSON value
    the body holds for it; [null] is [Given PNone]. *)
Inductive field (A : Type) :=
  | Omitted
  | Given (a : A).
Arguments Omitted {A}.
Arguments Given {A} a.

(** The JSON object a request carries, by the fields the model declares;
    what else the object holds is ignored. *)
Record request_body := RequestBody {
  body_api_base_url : field pyval;
  body_api_key : field pyval;
  body_api_secret : field pyval;
  body_risk_free_rate : field pyval;
  body_rebalance_interval : field pyval;
  body_target_sharpe : field pyval;
  body_cov_window : field pyval;
  body_price_endpoint : field pyval;
  body_position_endpoint : field pyval;
  body_audit_log_path : field pyval
}.

(** What pydantic makes of a value that is not of the type its field
    declares - a number for a string, a string or a bool for a number:
    the value converted, or a refusal. Which values it converts depends
    on the version of the library, so the conversions are left open. *)
Record conversions := Conversions {
  str_of : pyval → option string;
  int_of : pyval → option Z;
  float_of : pyval → option float
}.

Record ConfigurationRequest := {
  api_base_url : string;
  api_key : string;
  api_secret : option string;
  risk_free_rate : option float;
  rebalance_interval : option Z;
  target_sharpe : option float;
  cov_window : option Z;
  price_endpoint : option string;
  position_endpoint : option string;
  audit_log_path : option string
}.

Definition validate_https_url (v : string) : outcome string :=
  if negb (Text.startswith "https://" v) then Raise ValueError
  else Return v.

Section Validation.

Variable convert : conversions.

(** A value for a field declared [str], [int] or [float]: a value of
    that type is taken as it is, [null] is not one, and anything else is
    converted or refused. *)
Definition as_str (v : pyval) : option string :=
  match v with
  | PStr s => Some s
  | PNone => None
  | _ => str_of convert v
  end.

Definition as_int (v : pyval) : option Z :=
  match v with
  | PInt n => Some n
  | PNone => None
  | _ => int_of convert v
  end.

Definition as_float (v : pyval) : option float :=
  match v with
  | PFloat x => Some x
  | PNone => None
  | _ => float_of convert v
  end.

(** A field without a default: it must be given, and not as [null]. *)
Definition required {A} (as_type : pyval → option A) (f : field pyval) : option A :=
  match f with
  | Omitted => None
  | Given v => as_type v
  end.

(** A field declared [Optional[...] = d]: the default when it is left
    out, [None] for [null], else a value of the type. *)
Definition optional {A} (as_type : pyval → option A) (d : option A) (f : field pyval)
  : option (option A) :=
  match f with
  | Omitted => Some d
  | Given PNone => Some None
  | Given v => Some <$> as_type v
  end.

(** The entry of the validation error for a field that was refused. *)
Definition refusal {A} (name : string) (validated : option A) : list string :=
  match validated with
  | Some _ => []
  | None => [name]
  end.

(** Building the model from a request body: every field is validated, in
    the order of the class, and [validate_https_url] runs on the
    [api_base_url] that passed as a string. When a field is refused the
    request fails with the names of all refused fields, before the
    endpoint runs. *)
Definition parse_request (body : request_body) : outcome ConfigurationRequest :=
  let url :=
    v ← required as_str (body_api_base_url body);
    match validate_https_url v with
    | Return v => Some v
    | Raise _ => None
    end in
  let key := required as_str (body_api_key body) in
  let secret := optional as_str (Some "") (body_api_secret body) in
  let rate := optional as_float (Some 0.02%float) (body_risk_free_rate body) in
  let interval := optional as_int (Some 300) (body_rebalance_interval body) in
  let sharpe := optional as_float None (body_target_sharpe body) in
  let window := optional as_int (Some 60) (body_cov_window body) in
  let prices := optional as_str (Some "/prices") (body_price_endpoint body) in
  let positions := optional as_str (Some "/positions") (body_position_endpoint body) in
  let path := optional as_str (Some "audit.log") (body_audit_log_path body) in
  match url, key, secret, rate, interval, sharpe, window, prices, positions, path with
  | Some url, Some key, Some secret, Some rate, Some interval, Some sharpe,
    Some window, Some prices, Some positions, Some path =>
      Return {|
        api_base_url := url;
        api_key := key;
        api_secret := secret;
        risk_free_rate := rate;
        rebalance_interval := interval;
        target_sharpe := sharpe;
        cov_window := window;
        price_endpoint := prices;
        position_endpoint := positions;
        audit_log_path := path
      |}
  | _, _, _, _, _, _, _, _, _, _ =>
      Raise (RequestValidationError
        (refusal "api_base_url" url ++ refusal "api_key" key ++
         refusal "api_secret" secret ++ refusal "risk_free_rate" rate ++
         refusal "rebalance_interval" interval ++ refusal "target_sharpe" sharpe ++
         refusal "cov_window" window ++ refusal "price_endpoint" prices ++
         refusal "position_endpoint" positions ++ refusal "audit_log_path" path))
  end.

End Validation.

(** An optional model field as the value [json.dump] is handed. *)
Definition opt {A} (inj : A → pyval) (v : option A) : pyval :=
  match v with
  | Some a => inj a
  | None => PNone
  end.

Definition create_env_file (config : ConfigurationRequest) : M unit :=
  let env_content :=
    "API_URL=" +:+ api_base_url config +:+ String Text.LF "" +:+
    "API_TOKEN=" +:+ api_key config +:+ String Text.LF "" in
  write_file ".env" env_content.

Section Supervisor.

(** ** The [json] module

    [json_loads s] is [json.loads(s)]: the value decoded, or what it
    raises - [JSONDecodeError] for a text that is not JSON, and whatever
    else the decoder raises on a text it gives up on; [json_dumps v] is
    the text [json.dump(v, f, indent=2)] writes. *)
Variable json_loads : string → outcome pyval.
Variable json_dumps : pyval → string.

(** What pydantic converts, for the request model. *)
Variable convert : conversions.

(** [config.get('audit_log_path', 'audit.log')] on what [json.load] gave. *)
Definition config_get_audit_log_path (config : pyval) : outcome pyval :=
  match config with
  | PDict items =>
      Return (default (PStr "audit.log") (dict_lookup "audit_log_path" items))
  | _ => Raise AttributeError
  end.

(** The opening of both readers: the default path, replaced by the
    configured one when [config.json] exists. *)
Definition audit_file_path (fs : gmap string string) : outcome pyval :=
  if bool_decide (is_Some (fs !! "config.json")) then
    text ← open_read fs (PStr "config.json");
    config ← json_loads text;
    config_get_audit_log_path config
  else Return (PStr "audit.log").

(** ** Reading the audit log *)

Definition read_latest_audit_record_body (fs : gmap string string) : outcome pyval :=
  audit_file ← audit_file_path fs;
  found ← os_path_exists fs audit_file;
  if negb found then Return PNone
  else
    text ← open_read fs audit_file;
    let lines := Text.split_lines "" text in
    match last lines with
    | None => Return PNone
    | Some line => json_loads (Text.strip line)
    end.

Definition read_latest_audit_record (fs : gmap string string) : pyval :=
  match read_latest_audit_record_body fs with
  | Return v => v
  | Raise _ => PNone
  end.

(** One turn of the loop over the recent lines: the record of the line
    is appended; [JSONDecodeError], and nothing else, is caught and the
    line passed over. *)
Definition append_record (records : list pyval) (line : string) : outcome (list pyval) :=
  match json_loads (Text.strip line) with
  | Return record => Return (records ++ [record])%list
  | Raise JSONDecodeError => Return records
  | Raise e => Raise e
  end.

(** [for x in items: body], the state of the loop passed along; an
    exception ends the loop. *)
Fixpoint for_each {A S} (body : S → A → outcome S) (items : list A) (s : S) : outcome S :=
  match items with
  | [] => Return s
  | x :: rest => s' ← body s x; for_each body rest s'
  end.

Definition recent_lines (limit : Z) (lines : list string) : list string :=
  if Z.of_nat (length lines) >? limit then slice_from (- limit) lines else lines.

Definition get_audit_log_body (fs : gmap string string) (limit : Z) : outcome pyval :=
  audit_file ← audit_file_path fs;
  found ← os_path_exists fs audit_file;
  if negb found then Return (PDict [("records", PList [])])
  else
    text ← open_read fs audit_file;
    let lines := Text.split_lines "" text in
    records ← for_each append_record (rev (recent_lines limit lines)) [];
    Return (PDict [("records", PList records)]).

Definition get_audit_log (fs : gmap string string) (limit : Z) : outcome pyval :=
  try_except (get_audit_log_body fs limit)
    (λ e, Raise (HTTPException 500 "Failed to retrieve audit log: " (Some e))).

(** ** Endpoints acting on the engine *)

Definition config_data (config : ConfigurationRequest) : pyval :=
  PDict [
    ("risk_free_rate", opt PFloat (risk_free_rate config));
    ("rebalance_interval", opt PInt (rebalance_interval config));
    ("target_sharpe", opt PFloat (target_sharpe config));
    ("cov_window", opt PInt (cov_window config));
    ("price_endpoint", opt PStr (price_endpoint config));
    ("position_endpoint", opt PStr (position_endpoint config));
    ("audit_log_path", opt PStr (audit_log_path config))
  ].

Definition create_config_file (config : ConfigurationRequest) : M unit :=
  write_file "config.json" (json_dumps (config_data config)).

(** [str(pid)] for what [is_project_running] reports. *)
Definition str_pid (pid : option Z) : string :=
  match pid with
  | Some n => Text.str_int n
  | None => "None"
  end.

Definition configure_service (config : ConfigurationRequest) : M pyval :=
  catch
    (stop_project_service ;;
     create_env_file config ;;
     create_config_file config ;;
     project_process <- start_project_service ;;
     sleep 2 ;;
     status <- lift (λ w, Return (is_project_running w)) ;;
     if negb status.1 then raise (Exception "Service failed to start" None)
     else
       ret (PDict [
         ("message",
          PStr ("Portfolio service configured and started successfully (PID: "
                +:+ str_pid status.2 +:+ ")"));
         ("service_status", PStr "running")]))%sup
    (λ e, raise (HTTPException 400 "Configuration failed: " (Some e))).

(** [POST /configure]: the body is validated first, and the endpoint runs
    only on a model that passed. *)
Definition post_configure (body : request_body) : M pyval :=
  match parse_request convert body with
  | Return config => configure_service config
  | Raise e => raise e
  end.

Definition stop_service : M pyval :=
  catch
    (success <- stop_project_service ;;
     if success then
       ret (PDict [("message", PStr "Portfolio service stopped successfully")])
     else raise (HTTPException 500 "Failed to stop service" None))%sup
    (λ e, raise (HTTPException 500 "Failed to stop service: " (Some e))).

Definition restart_service : M pyval :=
  catch
    (stop_project_service ;;
     sleep 1 ;;
     project_process <- start_project_service ;;
     sleep 2 ;;
     status <- lift (λ w, Return (is_project_running w)) ;;
     if status.1 then
       ret (PDict [
         ("message",
          PStr ("Portfolio service restarted successfully (PID: "
                +:+ str_pid status.2 +:+ ")"))])
     else raise (HTTPException 500 "Service failed to restart" None))%sup
    (λ e, raise (HTTPException 500 "Failed to restart service: " (Some e))).

End Supervisor.

(** ** The endpoints that only read *)

(** [bool(v)] *)
Definition truthy (v : pyval) : bool :=
  match v with
  | PNone => false
  | PBool b => b
  | PInt n => negb (n =? 0)
  | PFloat x => negb (PrimFloat.eqb x 0%float)
  | PStr s => negb (String.eqb s "")
  | PList items => match items with [] => false | _ => true end
  | PDict items => match items with [] => false | _ => true end
  end.

(** A [KeyError], carried as the exception whose text is the quoted key,
    which is what [str] gives for it. *)
Definition KeyError (key : string) : exn :=
  Exception ("'" +:+ key +:+ "'") None.

(** [v[key]] for a string key. *)
Definition subscript (v : pyval) (key : string) : outcome pyval :=
  match v with
  | PDict items =>
      match dict_lookup key items with
      | Some x => Return x
      | None => Raise (KeyError key)
      end
  | _ => Raise TypeError
  end.

(** [v.get(key, fallback)] *)
Definition get_or (v : pyval) (key : string) (fallback : pyval) : outcome pyval :=
  match v with
  | PDict items => Return (default fallback (dict_lookup key items))
  | _ => Raise AttributeError
  end.

(** [GET /logs]: the last 50 lines of the engine's own log. *)
Definition get_service_logs (fs : gmap string string) : outcome pyval :=
  let log_file := PStr "portfolio_service.log" in
  let body : outcome pyval :=
    found ← os_path_exists fs log_file;
    if (found : bool) then
      text ← open_read fs log_file;
      let lines := Text.split_lines "" text in
      Return (PDict [("logs", PList (PStr <$> slice_from (-50) lines))])
    else Return (PDict [("logs", PList [PStr "No log file found"])]) in
  try_except body
    (λ e, Raise (HTTPException 500 "Failed to retrieve logs: " (Some e))).

Section Analysis.

Variable json_loads : string → outcome pyval.

(** [AnalysisResponse(timestamp=..., positions=..., weights=...,
    expected_return=..., expected_volatility=..., sharpe_ratio=...)]: the
    response model, which checks and converts the six values it is
    given. *)
Variable AnalysisResponse :
  pyval → pyval → pyval → pyval → pyval → pyval → outcome pyval.

Definition get_latest_analysis_body (fs : gmap string string) : outcome pyval :=
  let latest_record := read_latest_audit_record json_loads fs in
  if negb (truthy latest_record) then
    Raise (HTTPException 404 "No analysis data available yet" None)
  else
    timestamp ← subscript latest_record "timestamp";
    positions ← get_or latest_record "positions" (PDict []);
    weights ← subscript latest_record "weights";
    expected_return ← subscript latest_record "expected_return";
    expected_volatility ← subscript latest_record "expected_volatility";
    sharpe_ratio ← subscript latest_record "sharpe_ratio";
    AnalysisResponse timestamp positions weights
      expected_return expected_volatility sharpe_ratio.

(** [GET /analysis]: an [HTTPException] passes through, anything else
    becomes a 500. *)
Definition get_latest_analysis (fs : gmap string string) : outcome pyval :=
  match get_latest_analysis_body fs with
  | Return response => Return response
  | Raise (HTTPException status_code detail cause) =>
      Raise (HTTPException status_code detail cause)
  | Raise e => Raise (HTTPException 500 "Failed to retrieve analysis: " (Some e))
  end.

End Analysis.

Section Status.

Variable json_loads : string → outcome pyval.

(** [time.time()] and, for a pid, [process.create_time()]. *)
Variable time_time : float.
Variable create_time : Z → outcome float.

(** [ServiceStatus(running=..., pid=..., last_rebalance=...,
    uptime_seconds=...)]: the response model. *)
Variable ServiceStatus : bool → option Z → pyval → option float → outcome pyval.

(** The uptime of the engine, [None] when there is no engine or when
    asking for it fails. *)
Definition uptime_seconds (w : world) (running : bool) (pid : option Z) : option float :=
  match pid with
  | Some n =>
      if running && negb (n =? 0) then
        match
          process ← psutil_Process (procs w) n;
          created ← create_time n;
          Return (PrimFloat.sub time_time created)
        with
        | Return uptime => Some uptime
        | Raise _ => None
        end
      else None
  | None => None
  end.

(** [GET /status]; nothing here catches what the reading of the latest
    record raises. *)
Definition get_service_status (w : world) : outcome pyval :=
  let status := is_project_running w in
  let uptime := uptime_seconds w status.1 status.2 in
  let latest_record := read_latest_audit_record json_loads (files w) in
  last_rebalance ←
    (if truthy latest_record then get_or latest_record "timestamp" PNone
     else Return PNone);
  ServiceStatus status.1 status.2 last_rebalance uptime.

End Status.

(** ** A decoder and an encoder to run the supervisor on

    [JsonLite.loads] decodes the fragment of JSON without fractions,
    exponents, [\u] escapes and the [NaN]/[Infinity] literals, as
    [json.loads] does on it; a text outside the fragment is refused.
    [JsonLite.dumps] lays a value out as [json.dump(_, indent=2)] does,
    except that a float is written with all its decimal digits where
    Python writes the shortest run that reads back to the same float.
    They instantiate [json_loads] and [json_dumps] in the examples. *)

Module JsonLite.

Definition QUOTE : ascii := ascii_of_N 34.

Definition is_ws (c : ascii) : bool :=
  let n := N_of_ascii c in ((n =? 32) || (n =? 9) || (n =? 10) || (n =? 13))%N.

Fixpoint skip_ws (s : string) : string :=
  match s with
  | EmptyString => EmptyString
  | String c r => if is_ws c then skip_ws r else s
  end.

Definition unescape (c : ascii) : option ascii :=
  let n := N_of_ascii c in
  if (n =? 34)%N then Some c
  else if (n =? 92)%N then Some c
  else if (n =? 47)%N then Some c
  else if (n =? 98)%N then Some (ascii_of_N 8)
  else if (n =? 102)%N then Some (ascii_of_N 12)
  else if (n =? 110)%N then Some (ascii_of_N 10)
  else if (n =? 114)%N then Some (ascii_of_N 13)
  else if (n =? 116)%N then Some (ascii_of_N 9)
  else None.

(** The characters of a string literal after its opening quote. *)
Fixpoint string_body (acc : string) (s : string) : option (string * string) :=
  match s with
  | EmptyString => None
  | String c r =>
      let n := N_of_ascii c in
      if (n =? 34)%N then Some (acc, r)
      else if (n =? 92)%N then
        match r with
        | String e r' =>
            match unescape e with
            | Some c' => string_body (acc +:+ String c' "") r'
            | None => None
            end
        | EmptyString => None
        end
      else if (n <? 32)%N then None
      else string_body (acc +:+ String c "") r
  end.

Fixpoint digit_run (acc : Z) (s : string) : Z * string :=
  match s with
  | String c r =>
      match Text.digit_of c with
      | Some d => digit_run (10 * acc + d) r
      | None => (acc, s)
      end
  | EmptyString => (acc, s)
  end.

Definition starts_fraction (s : string) : bool :=
  match s with
  | String c _ =>
      let n := N_of_ascii c in ((n =? 46) || (n =? 101) || (n =? 69))%N
  | EmptyString => false
  end.

(** An integer literal: no leading zero before another digit. *)
Definition natural (s : string) : option (Z * string) :=
  match s with
  | String c r =>
      match Text.digit_of c with
      | Some 0 =>
          match r with
          | String c' _ =>
              if bool_decide (is_Some (Text.digit_of c')) || starts_fraction r then None
              else Some (0, r)
          | EmptyString => Some (0, r)
          end
      | Some d =>
          let '(n, rest) := digit_run d r in
          if starts_fraction rest then None else Some (n, rest)
      | None => None
      end
  | EmptyString => None
  end.

Definition number (s : string) : option (pyval * string) :=
  match s with
  | String "-" r => (λ '(n, rest), (PInt (- n), rest)) <$> natural r
  | _ => (λ '(n, rest), (PInt n, rest)) <$> natural s
  end.

Definition literal (word : string) (v : pyval) (s : string) : option (pyval * string) :=
  if String.prefix word s
  then Some (v, String.substring (String.length word)
                  (String.length s - String.length word) s)
  else None.

(** [d[key] = v] on the items of a dict. *)
Fixpoint dict_set (key : string) (v : pyval) (items : list (string * pyval))
  : list (string * pyval) :=
  match items with
  | [] => [(key, v)]
  | (k, v') :: rest =>
      if String.eqb k key then (k, v) :: rest else (k, v') :: dict_set key v rest
  end.

Definition expect (c : ascii) (s : string) : option string :=
  match s with
  | String c' r => if Ascii.eqb c c' then Some r else None
  | EmptyString => None
  end.

Fixpoint value (fuel : nat) (s : string) : option (pyval * string) :=
  match fuel with
  | O => None
  | S fuel =>
      match skip_ws s with
      | EmptyString => None
      | String c r as s' =>
          if Ascii.eqb c QUOTE then
            (λ '(str, rest), (PStr str, rest)) <$> string_body EmptyString r
          else if Ascii.eqb c "[" then
            match skip_ws r with
            | String "]" rest => Some (PList [], rest)
            | r' => elements fuel [] r'
            end
          else if Ascii.eqb c "{" then
            match skip_ws r with
            | String "}" rest => Some (PDict [], rest)
            | r' => members fuel [] r'
            end
          else if Ascii.eqb c "n" then literal "null" PNone s'
          else if Ascii.eqb c "t" then literal "true" (PBool true) s'
          else if Ascii.eqb c "f" then literal "false" (PBool false) s'
          else number s'
      end
  end
with elements (fuel : nat) (acc : list pyval) (s : string) : option (pyval * string) :=
  match fuel with
  | O => None
  | S fuel =>
      match value fuel s with
      | Some (v, rest) =>
          match skip_ws rest with
          | String "," rest' => elements fuel (acc ++ [v]) rest'
          | String "]" rest' => Some (PList (acc ++ [v]), rest')
          | _ => None
          end
      | None => None
      end
  end
with members (fuel : nat) (acc : list (string * pyval)) (s : string) : option (pyval * string) :=
  match fuel with
  | O => None
  | S fuel =>
      match expect QUOTE (skip_ws s) with
      | Some r =>
          match string_body EmptyString r with
          | Some (key, rest) =>
              match expect ":" (skip_ws rest) with
              | Some rest' =>
                  match value fuel rest' with
                  | Some (v, rest'') =>
                      match skip_ws rest'' with
                      | String "," more => members fuel (dict_set key v acc) more
                      | String "}" more => Some (PDict (dict_set key v acc), more)
                      | _ => None
                      end
                  | None => None
                  end
              | None => None
              end
          | None => None
          end
      | None => None
      end
  end.

Definition loads (s : string) : outcome pyval :=
  match value (2 * String.length s + 2) s with
  | Some (v, rest) =>
      match skip_ws rest with
      | EmptyString => Return v
      | _ => Raise JSONDecodeError
      end
  | None => Raise JSONDecodeError
  end.

Definition hex_digit (n : N) : ascii :=
  if (n <? 10)%N then ascii_of_N (48 + n) else ascii_of_N (87 + n).

Definition BACKSLASH : ascii := ascii_of_N 92.

(** One character of a string literal, as [ensure_ascii] writes it. *)
Definition escape (c : ascii) : string :=
  let n := N_of_ascii c in
  let short (e : ascii) := String BACKSLASH (String e EmptyString) in
  if (n =? 34)%N then short QUOTE
  else if (n =? 92)%N then short BACKSLASH
  else if (n =? 10)%N then short "n"%char
  else if (n =? 13)%N then short "r"%char
  else if (n =? 9)%N then short "t"%char
  else if (n =? 8)%N then short "b"%char
  else if (n =? 12)%N then short "f"%char
  else if ((n <? 32) || (126 <? n))%N then
    String BACKSLASH
      ("u00" +:+ String (hex_digit (n / 16)) (String (hex_digit (n mod 16)) EmptyString))
  else String c EmptyString.

Fixpoint escape_all (s : string) : string :=
  match s with
  | EmptyString => EmptyString
  | String c r => escape c +:+ escape_all r
  end.

Definition quoted (s : string) : string :=
  String QUOTE (escape_all s +:+ String QUOTE EmptyString).

(** The digits of [num / den] after the point, [0 <= num < den]. *)
Fixpoint fraction_digits (fuel : nat) (num den : Z) : string :=
  match fuel with
  | O => EmptyString
  | S fuel =>
      let d := (10 * num) / den in
      let r := (10 * num) mod den in
      String (ascii_of_N (48 + Z.to_N d))
        (if r =? 0 then EmptyString else fraction_digits fuel r den)
  end.

Definition float_digits (x : float) : string :=
  match Prim2SF x with
  | S754_nan => "NaN"
  | S754_infinity false => "Infinity"
  | S754_infinity true => "-Infinity"
  | S754_zero false => "0.0"
  | S754_zero true => "-0.0"
  | S754_finite sgn m e =>
      let sign := if sgn then "-" else EmptyString in
      if 0 <=? e then sign +:+ Text.str_int (Z.pos m * 2 ^ e) +:+ ".0"
      else
        let den := 10 ^ (- e) in
        let num := Z.pos m * 5 ^ (- e) in
        sign +:+ Text.str_int (num / den) +:+ "." +:+
        fraction_digits (S (Z.to_nat (- e))) (num mod den) den
  end.

Fixpoint spaces (n : nat) : string :=
  match n with
  | O => EmptyString
  | S n => String " " (spaces n)
  end.

Definition layout (level : nat) (opening closing : string) (items : list string) : string :=
  let sep := String Text.LF (spaces (2 * S level)) in
  opening +:+ sep +:+ String.concat ("," +:+ sep) items +:+
  String Text.LF (spaces (2 * level)) +:+ closing.

Fixpoint dumps_at (level : nat) (v : pyval) : string :=
  match v with
  | PNone => "null"
  | PBool true => "true"
  | PBool false => "false"
  | PInt n => Text.str_int n
  | PFloat x => float_digits x
  | PStr s => quoted s
  | PList [] => "[]"
  | PList items => layout level "[" "]" (map (dumps_at (S level)) items)
  | PDict [] => "{}"
  | PDict items =>
      layout level "{" "}"
        (map (λ kv, quoted kv.1 +:+ ": " +:+ dumps_at (S level) kv.2) items)
  end.

Definition dumps (v : pyval) : string := dumps_at 0 v.

End JsonLite.

(** ** The engine's configuration snapshot *)

Module Config.

(** The rules a snapshot must satisfy. *)
Inductive rule :=
  | EmptyAssets
  | DuplicateSymbols
  | RiskFreeRateRange
  | WeightBounds
  | NonPositiveInterval
  | NonPositiveWindow.

#[global] Instance rule_eq_dec : EqDecision rule.
Proof. solve_decision. Defined.

(** The message [ValueError] carries for a rule, where the test suite
    shows it. *)
Definition message (r : rule) : option string :=
  match r with
  | EmptyAssets => Some "Assets list cannot be empty"
  | DuplicateSymbols => Some "Duplicate asset symbols found"
  | RiskFreeRateRange => Some "risk_free_rate must be between 0 and 1"
  | WeightBounds =>
      Some "min_weight_per_asset must be less than max_weight_per_asset"
  | NonPositiveInterval | NonPositiveWindow => None
  end.

Record PortfolioConfig := {
  assets : list string;
  risk_free_rate : float;
  min_weight_per_asset : float;
  max_weight_per_asset : float;
  target_sharpe : option float;
  cov_window : Z;
  rebalance_interval : Z;
  price_endpoint : string;
  position_endpoint : string;
  audit_log_path : string
}.

Definition check (violated : bool) (r : rule) : list rule :=
  if violated then [r] else [].

(** Modelled from the spec: the validation [PortfolioConfig] runs when it
    is constructed lives in project.py, which is not among the sources;
    sections 3 and 4.1 give its rules (assets non-empty and unique, rate
    in [0,1], min below max, positive interval and window) and say that
    every violated rule is listed. *)
Definition violations (c : PortfolioConfig) : list rule :=
  check (bool_decide (assets c = [])) EmptyAssets ++
  check (negb (bool_decide (NoDup (assets c)))) DuplicateSymbols ++
  check (negb (PrimFloat.leb 0 (risk_free_rate c) && PrimFloat.leb (risk_free_rate c) 1))
    RiskFreeRateRange ++
  check (negb (PrimFloat.ltb (min_weight_per_asset c) (max_weight_per_asset c)))
    WeightBounds ++
  check (rebalance_interval c <=? 0) NonPositiveInterval ++
  check (cov_window c <=? 0) NonPositiveWindow.

(** Modelled from the spec: construction either yields the snapshot or
    fails with the violated rules (section 3: violating any rule fails
    construction immediately). *)
Definition construct (c : PortfolioConfig) : list rule + PortfolioConfig :=
  match violations c with
  | [] => inr c
  | errors => inl errors
  end.

(** Modelled from the spec: a reload replaces the active snapshot only by
    one that was constructed (section 4.1: a malformed update leaves the
    previously active snapshot in force). *)
Definition activate (active : option PortfolioConfig) (c : PortfolioConfig)
  : option PortfolioConfig :=
  match construct c with
  | inr valid => Some valid
  | inl _ => active
  end.

End Config.

(** ** Notions used to state the properties *)

(** The store after the pid file, if there is one, was removed. *)
Definition pid_file_removed (w : world) : world :=
  match files w !! project_pid_file with
  | Some _ => set_files (delete project_pid_file) (add_event (EvRemove project_pid_file) w)
  | None => w
  end.

(** [m] leaves the file at [path] as it found it. *)
Definition keeps_file {A} (path : string) (m : M A) : Prop :=
  ∀ w, files (m w).2 !! path = files w !! path.

(** No character of [s] ends a line. *)
Fixpoint line_break_free (s : string) : bool :=
  match s with
  | EmptyString => true
  | String c r =>
      negb (Ascii.eqb c Text.LF) && negb (Ascii.eqb c Text.CR) && line_break_free r
  end.

(** The answer of a successful [stop]. *)
Definition stopped_message : pyval :=
  PDict [("message", PStr "Portfolio service stopped successfully")].

(** The types the fields of a request declare. *)
Inductive json_type := JStr | JInt | JFloat.

(** [v] is [null] or a value of the type. *)
Definition null_or_of_type (T : json_type) (v : pyval) : bool :=
  match T, v with
  | _, PNone | JStr, PStr _ | JInt, PInt _ | JFloat, PFloat _ => true
  | _, _ => false
  end.

(** The value of the type that pydantic converts [v] to. *)
Definition converted (convert : conversions) (T : json_type) (v : pyval) : option pyval :=
  match T with
  | JStr => PStr <$> str_of convert v
  | JInt => PInt <$> int_of convert v
  | JFloat => PFloat <$> float_of convert v
  end.

(** In the words of the spec: a field of the configuration file is
    taken from the corresponding request field, or is the documented
    default when the request omits it. A value given with another type
    than the field declares is taken as pydantic converts it. *)
Definition taken_from
    (convert : conversions) (T : json_type)
    (given : field pyval) (documented_default written : pyval) : Prop :=
  match given with
  | Omitted => written = documented_default
  | Given v =>
      if null_or_of_type T v then written = v
      else converted convert T v = Some written
  end.


(** The process a call acts on, for the calls made on a process. *)
Definition signalled (ev : event) : option Z :=
  match ev with
  | EvTerminate pid | EvWait pid _ | EvKill pid => Some pid
  | EvPopen _ | EvWrite _ | EvRemove _ | EvSleep _ => None
  end.


Section Lines.

Variable json_loads : string → outcome pyval.

(** The record a line of the audit log holds, when the line decodes. *)
Definition line_record (line : string) : option pyval :=
  match json_loads (Text.strip line) with
  | Return record => Some record
  | Raise _ => None
  end.

(** What decoding a line raises, when that is not [JSONDecodeError]. *)
Definition line_failure (line : string) : option exn :=
  match json_loads (Text.strip line) with
  | Return _ | Raise JSONDecodeError => None
  | Raise e => Some e
  end.

(** What [audit-log] makes of the lines it goes through, in the order it
    goes through them: the records of the lines that decode, unless
    decoding a line raises something other than [JSONDecodeError]; the
    first such exception becomes the answer, a 500. *)
Definition audit_log_answer (window : list string) : outcome pyval :=
  match omap line_failure window with
  | e :: _ => Raise (HTTPException 500 "Failed to retrieve audit log: " (Some e))
  | [] => Return (PDict [("records", PList (omap line_record window))])
  end.

End Lines.

(** ** Sample inputs *)

Module Samples.

(** One line of an audit log: an object with a [timestamp]. *)
Definition record (timestamp : string) : pyval :=
  PDict [("timestamp", PStr timestamp)].

Definition record_line (timestamp : string) : string :=
  "{" +:+ JsonLite.quoted "timestamp" +:+ ": " +:+ JsonLite.quoted timestamp +:+ "}"
  +:+ String Text.LF EmptyString.

(** Three complete records. *)
Definition full_log : string :=
  record_line "2024-01-01T00:00:00Z" +:+
  record_line "2024-01-01T00:05:00Z" +:+
  record_line "2024-01-01T00:10:00Z".

Definition full_records : list pyval :=
  [record "2024-01-01T00:00:00Z";
   record "2024-01-01T00:05:00Z";
   record "2024-01-01T00:10:00Z"].

Definition full_lines : list string :=
  [record_line "2024-01-01T00:00:00Z";
   record_line "2024-01-01T00:05:00Z";
   record_line "2024-01-01T00:10:00Z"].

(** A complete record followed by a line the writer had not finished. *)
Definition torn_line : string := "{" +:+ String JsonLite.QUOTE "timest".

Definition torn_log : string := record_line "2024-01-01T00:00:00Z" +:+ torn_line.

(** A decoder with little room: it gives up on a text that opens three
    lists at once, as [json.loads] gives up on a text nested deeper than
    the interpreter allows. *)
Definition shallow_loads (s : string) : outcome pyval :=
  if Text.startswith "[[[" s then Raise RecursionError else JsonLite.loads s.

(** A line nested too deep for [shallow_loads], between two complete
    records. *)
Definition deep_line : string := "[[[1]]]" +:+ String Text.LF EmptyString.

Definition deep_log : string :=
  record_line "2024-01-01T00:00:00Z" +:+ deep_line +:+
  record_line "2024-01-01T00:10:00Z".

Definition engine_argv : list string := ["python"; "project.py"].

(** An engine that ignores the termination signal and yields to a kill;
    its pid is on file. *)
Definition stubborn_engine : world :=
  World {[ project_pid_file := "4242" ]}
    [(4242, Process (Some engine_argv) (Behaviour Delivered StillRunning Delivered))]
    [] [].

(** Two engines: the one on file, which can be stopped, and an older one
    that refuses every signal. *)
Definition two_engines : world :=
  World {[ project_pid_file := "200" ]}
    [(100, Process (Some engine_argv) (Behaviour Denied Exited Denied));
     (200, Process (Some engine_argv) (Behaviour Delivered Exited Delivered))]
    [] [].

(** A pydantic that converts nothing: a value that is not of the
    declared type is refused. *)
Definition strict : conversions :=
  Conversions (λ _, None) (λ _, None) (λ _, None).


(** A request that leaves every optional field out. *)
Definition minimal_body : request_body :=
  RequestBody (Given (PStr "https://venue.example/api")) (Given (PStr "token-1"))
    Omitted Omitted Omitted Omitted Omitted Omitted Omitted Omitted.

(** A request that gives some optional fields a value of their own,
    gives others as null, and leaves the rest out. *)
Definition tuned_body : request_body :=
  RequestBody (Given (PStr "https://venue.example/api")) (Given (PStr "token-1"))
    Omitted
    (Given (PFloat 0.5%float))
    (Given (PInt 120))
    (Given (PFloat 1.5%float))
    (Given PNone)
    Omitted
    (Given (PStr "/v2/positions"))
    (Given (PStr "trail.log")).

(** A request whose token carries a line break. *)
Definition two_line_token_body : request_body :=
  RequestBody (Given (PStr "https://venue.example/api"))
    (Given (PStr ("token-1" +:+ String Text.LF "API_URL=https://other.example")))
    Omitted Omitted Omitted Omitted Omitted Omitted Omitted Omitted.

(** A request for a venue reached without TLS. *)
Definition plain_http_body : request_body :=
  RequestBody (Given (PStr "http://venue.example/api")) (Given (PStr "token-1"))
    Omitted Omitted Omitted Omitted Omitted Omitted Omitted Omitted.

(** A world with nothing in it, where the next engine starts and stays. *)
Definition fresh_world : world :=
  World ∅ [] [PopenRuns 4242 (Behaviour Delivered Exited Delivered)] [].

(** The snapshot the test suite builds with a repeated symbol. *)
Definition repeated_symbol_config : Config.PortfolioConfig :=
  {| Config.assets := ["BTC"; "ETH"; "BTC"];
     Config.risk_free_rate := 0.02%float;
     Config.min_weight_per_asset := 0.05%float;
     Config.max_weight_per_asset := 0.4%float;
     Config.target_sharpe := None;
     Config.cov_window := 60;
     Config.rebalance_interval := 300;
     Config.price_endpoint := "/prices";
     Config.position_endpoint := "/positions";
     Config.audit_log_path := "audit.log" |}.

(** A validated request with its rates given as null, keeping the audit
    trail in trail.log. *)
Definition trail_config : ConfigurationRequest :=
  {| api_base_url := "https://venue.example/api";
     api_key := "token-1";
     api_secret := Some "";
     risk_free_rate := None;
     rebalance_interval := Some 300;
     target_sharpe := None;
     cov_window := Some 60;
     price_endpoint := Some "/prices";
     position_endpoint := Some "/positions";
     audit_log_path := Some "trail.log" |}.

(** The same request with audit_log_path given as null. *)
Definition null_path_config : ConfigurationRequest :=
  {| api_base_url := "https://venue.example/api";
     api_key := "token-1";
     api_secret := Some "";
     risk_free_rate := None;
     rebalance_interval := Some 300;
     target_sharpe := None;
     cov_window := Some 60;
     price_endpoint := Some "/prices";
     position_endpoint := Some "/positions";
     audit_log_path := None |}.

(** An engine runs, found by its command line; the next engine launched
    exits at once. *)
Definition short_lived_launch : world :=
  World ∅
    [(100, Process (Some engine_argv) (Behaviour Denied Exited Denied))]
    [PopenExits 4242] [].

(** A world where no engine can be launched. *)
Definition no_launch_world : world := World ∅ [] [] [].

(** A running engine behind a pid file that holds no number. *)
Definition hidden_engine : world :=
  World {[ project_pid_file := "not-a-pid" ]}
    [(4242, Process (Some engine_argv) (Behaviour Delivered Exited Delivered))]
    [] [].

(** No engine, no pid file; an editor has a file open whose name
    contains project.py. *)
Definition editor_world : world :=
  World ∅
    [(77, Process (Some ["vim"; "notes-on-project.py.txt"])
            (Behaviour Delivered Exited Delivered))]
    [] [].

(** A complete audit log beside a config.json that does not decode. *)
Definition broken_config_fs : gmap string string :=
  {[ "config.json" := "{"; "audit.log" := full_log ]}.

(** An audit log whose only line is a list. *)
Definition list_log_fs : gmap string string :=
  {[ "audit.log" := "[1]" +:+ String Text.LF "" ]}.

(** Three lines of the engine's own log. *)
Definition service_log : string :=
  "started" +:+ String Text.LF "" +:+ "cycle 1" +:+ String Text.LF "" +:+
  "cycle 2" +:+ String Text.LF "".

(** A response model that takes every value as it comes. *)
Definition accept_all
    (timestamp positions weights expected_return expected_volatility sharpe_ratio : pyval)
  : outcome pyval :=
  Return (PDict [
    ("timestamp", timestamp); ("positions", positions); ("weights", weights);
    ("expected_return", expected_return);
    ("expected_volatility", expected_volatility);
    ("sharpe_ratio", sharpe_ratio)]).

(** A status model that takes every value as it comes. *)
Definition status_of
    (running : bool) (pid : option Z) (last_rebalance : pyval) (uptime : option float)
  : outcome pyval :=
  Return (PDict [
    ("running", PBool running); ("pid", opt PInt pid);
    ("last_rebalance", last_rebalance); ("uptime_seconds", opt PFloat uptime)]).

(** The stubborn engine beside an audit log whose only line is a list. *)
Definition engine_with_list_log : world :=
  World {[ project_pid_file := "4242"; "audit.log" := "[1]" +:+ String Text.LF "" ]}
    [(4242, Process (Some engine_argv) (Behaviour Delivered StillRunning Delivered))]
    [] [].

End Samples.

(** * Properties *)

(** ** Reading the audit log *)

Section ReaderProperties.

Variable json_loads : string → outcome pyval.

(** The loop of [audit-log], from any list of records collected so
    far: it ends with the first exception other than [JSONDecodeError],
    and otherwise has appended the records of the lines that decode. *)
Lemma for_each_append_record (lines : list string) (records : list pyval) :
  for_each (append_record json_loads) lines records =
    match omap (line_failure json_loads) lines with
    | e :: _ => Raise e
    | [] => Return (records ++ omap (line_record json_loads) lines)%list
    end.
Proof.
  revert records. induction lines as [|line lines IH]; intros records.
  - cbn. by rewrite app_nil_r.
  - cbn [for_each omap list_omap]. unfold append_record, line_failure, line_record.
    destruct (json_loads (Text.strip line)) as [record|e]; cbn [mbind outcome_bind].
    + rewrite IH. fold (line_failure json_loads).
      destruct (omap (line_failure json_loads) lines); [|done].
      by rewrite <- app_assoc.
    + destruct e; cbn [mbind outcome_bind]; done.
Qed.

Lemma recent_lines_positive (limit : Z) (lines : list string) :
  0 < limit →
  recent_lines limit lines = drop (length lines - Z.to_nat limit)%nat lines.
Proof.
  intros Hpos. unfold recent_lines, slice_from.
  destruct (Z.gtb_spec (Z.of_nat (length lines)) limit) as [Hgt|Hle].
  - replace (- limit <? 0) with true by (symmetry; apply Z.ltb_lt; lia).
    f_equal. lia.
  - replace (length lines - Z.to_nat limit)%nat with 0%nat by lia. done.
Qed.

(** The window of lines is taken first, and the answer is made of its
    lines, newest first. *)
Lemma get_audit_log_found (fs : gmap string string) (limit : Z) (p content : string) :
  audit_file_path json_loads fs = Return (PStr p) →
  fs !! p = Some content →
  get_audit_log json_loads fs limit =
    audit_log_answer json_loads (reverse (recent_lines limit (Text.readlines content))).
Proof.
  intros Hpath Hfile. unfold get_audit_log, get_audit_log_body.
  rewrite Hpath. simpl. rewrite Hfile.
  rewrite bool_decide_eq_true_2 by eauto. simpl.
  rewrite for_each_append_record, rev_alt.
  change (rev_append ?l []) with (reverse l).
  unfold audit_log_answer, Text.readlines.
  by destruct (omap (line_failure json_loads) _).
Qed.

Lemma omap_decoded (lines : list string) (records : list pyval) :
  Forall2 (λ line r, json_loads (Text.strip line) = Return r) lines records →
  omap (line_record json_loads) lines = records ∧
  omap (line_failure json_loads) lines = [].
Proof.
  induction 1 as [|line r lines records Hr _ [IHr IHf]]; [done|].
  cbn [omap list_omap]. unfold line_record at 1, line_failure at 1.
  rewrite Hr. cbn. by rewrite IHr, IHf.
Qed.

(** The latest-record read decodes the last line and nothing else. *)
Lemma read_latest_last_line
    (fs : gmap string string) (p content : string) (before : list string) (line : string) :
  audit_file_path json_loads fs = Return (PStr p) →
  fs !! p = Some content →
  Text.readlines content = (before ++ [line])%list →
  read_latest_audit_record json_loads fs =
    match json_loads (Text.strip line) with
    | Return v => v
    | Raise _ => PNone
    end.
Proof.
  intros Hpath Hfile Hlines.
  unfold read_latest_audit_record, read_latest_audit_record_body.
  rewrite Hpath. simpl. rewrite Hfile.
  rewrite bool_decide_eq_true_2 by eauto. simpl.
  unfold Text.readlines in Hlines. by rewrite Hlines, last_snoc.
Qed.

End ReaderProperties.

Section AuditLogProperties.

Variable json_loads : string → outcome pyval.

(** C2. When the audit log consists of [k] lines that all decode, and the
    limit [n] is positive, [audit-log(limit=n)] answers with exactly
    [min k n] records, most recent first: the record at position [i]
    (counting from 0) is the one decoded from line [k - 1 - i]. *)
Theorem audit_log_most_recent_first
    (fs : gmap string string) (n : Z) (p content : string) (records : list pyval) :
  audit_file_path json_loads fs = Return (PStr p) →
  fs !! p = Some content →
  Forall2 (λ line r, json_loads (Text.strip line) = Return r)
    (Text.readlines content) records →
  0 < n →
  ∃ out,
    get_audit_log json_loads fs n = Return (PDict [("records", PList out)]) ∧
    length out = Nat.min (length records) (Z.to_nat n) ∧
    ∀ i, (i < length out)%nat → out !! i = records !! (length records - S i)%nat.
Proof.
  intros Hpath Hfile Hall Hpos.
  set (k := length records).
  set (d := (k - Z.to_nat n)%nat).
  assert (Hlen : length (Text.readlines content) = k)
    by (by apply Forall2_length in Hall).
  exists (reverse (drop d records)).
  assert (Hout : length (reverse (drop d records)) = Nat.min k (Z.to_nat n))
    by (rewrite length_reverse, length_drop; unfold d; fold k; lia).
  split; [|split; [exact Hout|]].
  - rewrite (get_audit_log_found _ _ _ _ _ Hpath Hfile).
    rewrite recent_lines_positive, Hlen by done. fold d.
    destruct (omap_decoded json_loads
                (reverse (drop d (Text.readlines content))) (reverse (drop d records)))
      as [Hrecords Hclean].
    { apply Forall2_reverse. by apply Forall2_drop. }
    unfold audit_log_answer. by rewrite Hclean, Hrecords.
  - intros i Hi. rewrite Hout in Hi.
    rewrite reverse_lookup by (rewrite length_drop; fold k; unfold d; lia).
    rewrite lookup_drop, length_drop. fold k. f_equal. unfold d. lia.
Qed.

(** C10. When the audit log file does not exist, [audit-log(limit)]
    answers with an empty record list, whatever the limit. *)
Theorem audit_log_missing_file_is_empty
    (fs : gmap string string) (limit : Z) (p : string) :
  audit_file_path json_loads fs = Return (PStr p) →
  fs !! p = None →
  get_audit_log json_loads fs limit = Return (PDict [("records", PList [])]).
Proof.
  intros Hpath Hmissing. unfold get_audit_log, get_audit_log_body.
  rewrite Hpath. simpl. rewrite Hmissing.
  rewrite bool_decide_eq_false_2; [done|]. by intros [? ?].
Qed.

(** The latest-record read looks at the last line only: when that line
    does not decode, the answer is [None], whatever the lines before it
    hold. *)
Lemma read_latest_last_line_only
    (fs : gmap string string) (p content : string) (before : list string) (line : string)
    (e : exn) :
  audit_file_path json_loads fs = Return (PStr p) →
  fs !! p = Some content →
  Text.readlines content = (before ++ [line])%list →
  json_loads (Text.strip line) = Raise e →
  read_latest_audit_record json_loads fs = PNone.
Proof.
  intros Hpath Hfile Hlines Hbad.
  rewrite (read_latest_last_line _ _ _ _ _ _ Hpath Hfile Hlines). by rewrite Hbad.
Qed.

End AuditLogProperties.

(** C1. On a log whose last line was left unfinished, the latest-record
    read answers [None] although the line before it is a complete record;
    [audit-log] on the same store passes the unfinished line over and
    returns that record. *)
Theorem read_latest_loses_complete_record :
  let fs : gmap string string := {[ "audit.log" := Samples.torn_log ]} in
  let complete := Samples.record "2024-01-01T00:00:00Z" in
  Text.readlines Samples.torn_log =
    [Samples.record_line "2024-01-01T00:00:00Z"; Samples.torn_line] ∧
  JsonLite.loads (Text.strip (Samples.record_line "2024-01-01T00:00:00Z")) =
    Return complete ∧
  JsonLite.loads (Text.strip Samples.torn_line) = Raise JSONDecodeError ∧
  read_latest_audit_record JsonLite.loads fs = PNone ∧
  get_audit_log JsonLite.loads fs 10 =
    Return (PDict [("records", PList [complete])]).
Proof.
  cbv zeta. split_and!; vm_compute; reflexivity.
Qed.

Lemma audit_log_most_recent_first_witness :
  ∃ out,
    get_audit_log JsonLite.loads {[ "audit.log" := Samples.full_log ]} 2 =
      Return (PDict [("records", PList out)]) ∧
    length out = Nat.min (length Samples.full_records) (Z.to_nat 2) ∧
    ∀ i, (i < length out)%nat →
      out !! i = Samples.full_records !! (length Samples.full_records - S i)%nat.
Proof.
  refine (audit_log_most_recent_first JsonLite.loads
            {[ "audit.log" := Samples.full_log ]} 2 "audit.log" Samples.full_log
            Samples.full_records _ _ _ _).
  - vm_compute. reflexivity.
  - vm_compute. reflexivity.
  - replace (Text.readlines Samples.full_log) with Samples.full_lines
      by (vm_compute; reflexivity).
    repeat (constructor; [vm_compute; reflexivity|]). constructor.
  - lia.
Defined.

Lemma audit_log_missing_file_is_empty_witness :
  get_audit_log JsonLite.loads ∅ (-3) = Return (PDict [("records", PList [])]).
Proof.
  refine (audit_log_missing_file_is_empty JsonLite.loads ∅ (-3) "audit.log" _ _).
  - vm_compute. reflexivity.
  - vm_compute. reflexivity.
Defined.

(** ** Stopping the engine *)

Lemma process_iter_find_in_table (table : list (Z * process)) (pid : Z) :
  process_iter_find table = Some pid → is_Some (find_process pid table).
Proof.
  induction table as [|[q p] table IH]; cbn [process_iter_find find_process]; [done|].
  destruct (Z.eqb_spec q pid) as [->|Hne]; [eauto|].
  destruct (cmdline p) as [[|arg args]|]; [exact IH| |exact IH].
  destruct (existsb _ _); [congruence|exact IH].
Qed.

Lemma is_project_running_in_table (w : world) (pid : Z) :
  is_project_running w = (true, Some pid) → is_Some (find_process pid (procs w)).
Proof.
  assert (Hscan :
    match process_iter_find (procs w) with
    | Some q => (true, Some q)
    | None => (false, None)
    end = (true, Some pid) → is_Some (find_process pid (procs w))).
  { destruct (process_iter_find (procs w)) eqn:Hs; intros [= <-].
    by apply process_iter_find_in_table. }
  unfold is_project_running, is_project_running_body.
  destruct (bool_decide (is_Some (files w !! project_pid_file))); simpl;
    [|destruct (process_iter_find (procs w)) eqn:Hs; intros [= <-];
      by apply process_iter_find_in_table].
  destruct (files w !! project_pid_file) as [text|]; simpl; [|done].
  destruct (Text.py_int _) as [n|]; simpl; [|done].
  destruct (pid_exists (procs w) n) as [[]|e]; simpl; [| |done].
  - unfold psutil_Process.
    destruct (find_process n (procs w)) as [p|] eqn:Hn; simpl; [|done].
    unfold process_cmdline. destruct (cmdline p); simpl; [|done].
    destruct (Text.contains _ _).
    + intros [= <-]. eauto.
    + destruct (process_iter_find (procs w)) eqn:Hs; intros [= <-].
      by apply process_iter_find_in_table.
  - destruct (process_iter_find (procs w)) eqn:Hs; intros [= <-].
    by apply process_iter_find_in_table.
Qed.

(** What [stop_project_service] does to an engine it found. *)
Lemma stop_project_service_running (w : world) (pid : Z) (p : process) :
  is_project_running w = (true, Some pid) →
  pid ≠ 0 →
  find_process pid (procs w) = Some p →
  stop_project_service w =
    let signalled := add_event (EvTerminate pid) w in
    let waited := add_event (EvWait pid 10) signalled in
    let killed := add_event (EvKill pid) waited in
    match on_terminate (replies p), on_wait (replies p), on_kill (replies p) with
    | Denied, _, _ => (Return false, signalled)
    | Delivered, Exited, _ =>
        (Return true, pid_file_removed (set_procs (remove_process pid) waited))
    | Delivered, StillRunning, Delivered =>
        (Return true, pid_file_removed (set_procs (remove_process pid) killed))
    | Delivered, StillRunning, Denied => (Return false, killed)
    end.
Proof.
  intros Hrun Hpid Hfind.
  unfold stop_project_service, bind, lift. rewrite Hrun. simpl.
  replace (pid =? 0) with false by (symmetry; by apply Z.eqb_neq).
  unfold catch, bind, lift, psutil_Process. rewrite Hfind.
  unfold terminate, wait, kill, bind, emit, ret, raise, pid_file_removed.
  destruct p as [argv [t wt k]]; simpl.
  destruct t, wt, k; simpl; try done.
  all: unfold os_remove, bind, emit; simpl.
  all: destruct (files w !! project_pid_file) eqn:Hpf;
    [rewrite bool_decide_eq_true_2 by eauto
    |rewrite bool_decide_eq_false_2 by (by intros [? ?])]; simpl.
  all: by rewrite ?Hpf.
Qed.

Lemma stop_project_service_idle (w : world) :
  (∀ pid, is_project_running w = (true, Some pid) → pid = 0) →
  stop_project_service w = (Return true, w).
Proof.
  intros Hidle. unfold stop_project_service, bind, lift.
  destruct (is_project_running w) as [[] [pid|]] eqn:Hrun; simpl; try done.
  by rewrite (Hidle pid eq_refl).
Qed.


Lemma pid_file_removed_gone (w : world) :
  files (pid_file_removed w) !! project_pid_file = None.
Proof.
  unfold pid_file_removed.
  destruct (files w !! project_pid_file) eqn:Hpf; simpl; [|done].
  apply lookup_delete_eq.
Qed.

Lemma pid_file_removed_procs (w : world) :
  procs (pid_file_removed w) = procs w.
Proof.
  unfold pid_file_removed. by destruct (files w !! project_pid_file).
Qed.


(** The endpoint relays what [stop_project_service] reports. *)
Lemma stop_service_relays (w : world) :
  stop_service w =
    match stop_project_service w with
    | (Return true, w') => (Return stopped_message, w')
    | (Return false, w') =>
        (Raise (HTTPException 500 "Failed to stop service: "
                  (Some (HTTPException 500 "Failed to stop service" None))), w')
    | (Raise e, w') => (Raise (HTTPException 500 "Failed to stop service: " (Some e)), w')
    end.
Proof.
  unfold stop_service, catch, bind.
  by destruct (stop_project_service w) as [[[]|e] w'].
Qed.


(** Splits a hypothesis [H : ev ∈ l], for an explicit list [l], into one
    goal for each element. *)
Ltac members H :=
  repeat match type of H with
  | _ ∈ _ :: _ => apply elem_of_cons in H as [->|H]
  | _ ∈ [] => by apply elem_of_nil in H
  end.





(** The engine is looked for in the files and the process table only. *)
Lemma is_project_running_ext (w1 w2 : world) :
  files w1 = files w2 → procs w1 = procs w2 →
  is_project_running w1 = is_project_running w2.
Proof.
  intros Hf Hp. unfold is_project_running, is_project_running_body.
  by rewrite Hf, Hp.
Qed.

Lemma is_project_running_no_pid_file (w : world) :
  files w !! project_pid_file = None →
  is_project_running w =
    match process_iter_find (procs w) with
    | Some pid => (true, Some pid)
    | None => (false, None)
    end.
Proof.
  intros Hpf. unfold is_project_running, is_project_running_body.
  rewrite Hpf. rewrite bool_decide_eq_false_2 by (by intros [? ?]). simpl.
  by destruct (process_iter_find (procs w)).
Qed.

Lemma stop_service_idle (w : world) :
  (∀ pid, is_project_running w = (true, Some pid) → pid = 0) →
  stop_service w = (Return stopped_message, w).
Proof.
  intros Hidle. by rewrite stop_service_relays, stop_project_service_idle.
Qed.

(** C9, as amended. When no engine process is found, [stop] reports
    success and changes nothing; and when no process other than the one
    [stop] acts on mentions project.py, a second [stop] gives the answer
    of the first and leaves its files and processes as they were. *)
Theorem stop_twice_is_stop_once (w : world) :
  ((is_project_running w).1 = false →
     stop_service w = (Return stopped_message, w)) ∧
  ((∀ pid, is_project_running w = (true, Some pid) →
           process_iter_find (remove_process pid (procs w)) = None) →
     (stop_service (stop_service w).2).1 = (stop_service w).1 ∧
     files (stop_service (stop_service w).2).2 = files (stop_service w).2 ∧
     procs (stop_service (stop_service w).2).2 = procs (stop_service w).2).
Proof.
  split.
  { intros Hidle. apply stop_service_idle. intros pid Hrun.
    by rewrite Hrun in Hidle. }
  intros Hsingle.
  assert (Hidle : (∀ pid, is_project_running w = (true, Some pid) → pid = 0) →
    (stop_service (stop_service w).2).1 = (stop_service w).1 ∧
    files (stop_service (stop_service w).2).2 = files (stop_service w).2 ∧
    procs (stop_service (stop_service w).2).2 = procs (stop_service w).2).
  { intros Hidle. rewrite (stop_service_idle w Hidle). simpl.
    by rewrite (stop_service_idle w Hidle). }
  destruct (is_project_running w) as [running [pid|]] eqn:Hrun;
    [|apply Hidle; congruence].
  destruct running; [|apply Hidle; congruence].
  destruct (decide (pid = 0)) as [->|Hpid]; [apply Hidle; congruence|].
  clear Hidle.
  destruct (is_project_running_in_table w pid Hrun) as [p Hfind].
  specialize (Hsingle pid eq_refl).
  assert (Hgone : ∀ w', procs w' = procs w →
    let w'' := pid_file_removed (set_procs (remove_process pid) w') in
    stop_service w'' = (Return stopped_message, w'')).
  { intros w' Hp w''. apply stop_service_idle. intros q.
    rewrite is_project_running_no_pid_file by apply pid_file_removed_gone.
    unfold w''. rewrite pid_file_removed_procs. simpl. by rewrite Hp, Hsingle. }
  assert (Hagain : ∀ w', files w' = files w → procs w' = procs w →
    stop_project_service w' =
      let signalled := add_event (EvTerminate pid) w' in
      let waited := add_event (EvWait pid 10) signalled in
      let killed := add_event (EvKill pid) waited in
      match on_terminate (replies p), on_wait (replies p), on_kill (replies p) with
      | Denied, _, _ => (Return false, signalled)
      | Delivered, Exited, _ =>
          (Return true, pid_file_removed (set_procs (remove_process pid) waited))
      | Delivered, StillRunning, Delivered =>
          (Return true, pid_file_removed (set_procs (remove_process pid) killed))
      | Delivered, StillRunning, Denied => (Return false, killed)
      end).
  { intros w' Hf Hp. apply stop_project_service_running; [|done|by rewrite Hp].
    by rewrite (is_project_running_ext w' w). }
  rewrite (stop_service_relays w), (Hagain w eq_refl eq_refl).
  destruct p as [argv [t wt k]]; cbn [replies on_terminate on_wait on_kill] in *.
  destruct t, wt; [| destruct k | |]; cbv zeta; cbn [fst snd].
  - by rewrite Hgone.
  - by rewrite Hgone.
  - by rewrite stop_service_relays, Hagain.
  - by rewrite stop_service_relays, Hagain.
  - by rewrite stop_service_relays, Hagain.
Qed.

Lemma stop_twice_is_stop_once_witness :
  (stop_service (stop_service Samples.stubborn_engine).2).1 =
    (stop_service Samples.stubborn_engine).1 ∧
  files (stop_service (stop_service Samples.stubborn_engine).2).2 =
    files (stop_service Samples.stubborn_engine).2 ∧
  procs (stop_service (stop_service Samples.stubborn_engine).2).2 =
    procs (stop_service Samples.stubborn_engine).2.
Proof.
  refine (proj2 (stop_twice_is_stop_once Samples.stubborn_engine) _).
  intros pid Hrun. vm_compute in Hrun. injection Hrun as <-.
  vm_compute. reflexivity.
Defined.

(** C9, as stated, fails: with a second engine that refuses the signal,
    the first [stop] succeeds on the engine on file and the second one
    fails on the other. *)
Lemma stop_twice_differs_from_stop_once :
  (stop_service Samples.two_engines).1 = Return stopped_message ∧
  (stop_service (stop_service Samples.two_engines).2).1 =
    Raise (HTTPException 500 "Failed to stop service: "
             (Some (HTTPException 500 "Failed to stop service" None))) ∧
  (stop_service (stop_service Samples.two_engines).2).1 ≠
    (stop_service Samples.two_engines).1.
Proof.
  split_and!; [vm_compute; reflexivity..|].
  vm_compute. discriminate.
Qed.

(** ** What the endpoints leave untouched *)

Lemma keeps_file_ret {A} (path : string) (a : A) : keeps_file path (ret a).
Proof. by intros w. Qed.

Lemma keeps_file_raise {A} (path : string) (e : exn) : keeps_file path (@raise A e).
Proof. by intros w. Qed.

Lemma keeps_file_lift {A} (path : string) (f : world → outcome A) :
  keeps_file path (lift f).
Proof. by intros w. Qed.

Lemma keeps_file_emit (path : string) (ev : event) : keeps_file path (emit ev).
Proof. by intros w. Qed.

Lemma keeps_file_bind {A B} (path : string) (m : M A) (k : A → M B) :
  keeps_file path m → (∀ a, keeps_file path (k a)) → keeps_file path (bind m k).
Proof.
  intros Hm Hk w. unfold bind. specialize (Hm w).
  destruct (m w) as [[a|e] w']; simpl in *; [|done].
  by rewrite Hk.
Qed.

Lemma keeps_file_catch {A} (path : string) (m : M A) (h : exn → M A) :
  keeps_file path m → (∀ e, keeps_file path (h e)) → keeps_file path (catch m h).
Proof.
  intros Hm Hh w. unfold catch. specialize (Hm w).
  destruct (m w) as [[a|e] w']; simpl in *; [done|].
  by rewrite Hh.
Qed.

Lemma keeps_file_write (path target content : string) :
  target ≠ path → keeps_file path (write_file target content).
Proof. intros Hne w. simpl. by apply lookup_insert_ne. Qed.

Lemma keeps_file_sleep (path : string) (seconds : Z) : keeps_file path (sleep seconds).
Proof. by intros w. Qed.

Lemma keeps_file_Popen (path : string) (argv : list string) : keeps_file path (Popen argv).
Proof.
  intros w. unfold Popen, bind, emit. simpl.
  by destruct (popen_script w) as [|[| |] script].
Qed.

Create HintDb keeps.

#[local] Hint Resolve keeps_file_ret keeps_file_raise keeps_file_lift keeps_file_emit
  keeps_file_sleep keeps_file_Popen : keeps.

Lemma keeps_file_stop_project_service (path : string) :
  path ≠ project_pid_file → keeps_file path stop_project_service.
Proof.
  intros Hne w.
  destruct (is_project_running w) as [running [pid|]] eqn:Hrun.
  2: { by rewrite stop_project_service_idle by (rewrite Hrun; congruence). }
  destruct running.
  2: { by rewrite stop_project_service_idle by (rewrite Hrun; congruence). }
  destruct (decide (pid = 0)) as [->|Hpid].
  { by rewrite stop_project_service_idle by (rewrite Hrun; congruence). }
  destruct (is_project_running_in_table w pid Hrun) as [p Hfind].
  rewrite (stop_project_service_running w pid p Hrun Hpid Hfind).
  assert (Hrem : ∀ w', files (pid_file_removed w') !! path = files w' !! path).
  { intros w'. unfold pid_file_removed.
    destruct (files w' !! project_pid_file); simpl; [|done].
    by apply lookup_delete_ne. }
  destruct (on_terminate (replies p)), (on_wait (replies p)), (on_kill (replies p));
    cbv zeta; cbn [snd]; by rewrite ?Hrem.
Qed.

Lemma keeps_file_start_project_service (path : string) :
  path ≠ project_pid_file → keeps_file path start_project_service.
Proof.
  intros Hne. unfold start_project_service.
  apply keeps_file_catch; [|auto with keeps].
  apply keeps_file_bind; [auto with keeps|]. intros pid.
  apply keeps_file_bind; [by apply keeps_file_write|]. auto with keeps.
Qed.

Lemma stop_project_service_returns (w : world) :
  ∃ b, (stop_project_service w).1 = Return b.
Proof.
  destruct (is_project_running w) as [running [pid|]] eqn:Hrun.
  2: { exists true. by rewrite stop_project_service_idle by (rewrite Hrun; congruence). }
  destruct running.
  2: { exists true. by rewrite stop_project_service_idle by (rewrite Hrun; congruence). }
  destruct (decide (pid = 0)) as [->|Hpid].
  { exists true. by rewrite stop_project_service_idle by (rewrite Hrun; congruence). }
  destruct (is_project_running_in_table w pid Hrun) as [p Hfind].
  rewrite (stop_project_service_running w pid p Hrun Hpid Hfind).
  destruct (on_terminate (replies p)), (on_wait (replies p)), (on_kill (replies p));
    cbv zeta; eauto.
Qed.

Lemma catch_bind_return {A B} (m : M A) (k : A → M B) (h : exn → M B)
    (w w' : world) (a : A) :
  m w = (Return a, w') → catch (bind m k) h w = catch (k a) h w'.
Proof. unfold catch, bind. by intros ->. Qed.


(** ** The configure endpoint *)

Section ConfigureProperties.

Variable json_dumps : pyval → string.
Variable convert : conversions.

(** The files [configure_service] leaves, the pid file apart: those it
    found, with the credential file and the configuration file written
    over them. *)
Lemma configure_service_files (config : ConfigurationRequest) (w : world) (path : string) :
  path ≠ project_pid_file →
  files (configure_service json_dumps config w).2 !! path =
    (<["config.json" := json_dumps (config_data config)]>
       (<[".env" := "API_URL=" +:+ api_base_url config +:+ String Text.LF "" +:+
                    "API_TOKEN=" +:+ api_key config +:+ String Text.LF ""]>
          (files w))) !! path.
Proof.
  intros Hne. unfold configure_service.
  destruct (stop_project_service_returns w) as [b Hb].
  destruct (stop_project_service w) as [o w1] eqn:Hstop. simpl in Hb. subst o.
  rewrite (catch_bind_return _ _ _ w w1 b Hstop).
  erewrite (catch_bind_return _ _ _ w1 _ tt); [|reflexivity].
  erewrite (catch_bind_return _ _ _ _ _ tt); [|reflexivity].
  match goal with
  | |- files (catch ?rest ?h ?w3).2 !! _ = _ =>
      assert (Hrest : keeps_file path (catch rest h))
  end.
  { apply keeps_file_catch; [|auto with keeps].
    apply keeps_file_bind; [by apply keeps_file_start_project_service|]. intros _.
    apply keeps_file_bind; [auto with keeps|]. intros _.
    apply keeps_file_bind; [auto with keeps|]. intros status.
    destruct (negb status.1); auto with keeps. }
  rewrite Hrest. simpl.
  pose proof (keeps_file_stop_project_service path Hne w) as Hkept.
  rewrite Hstop in Hkept. simpl in Hkept.
  rewrite !lookup_insert. repeat case_decide; done.
Qed.

(** A request is accepted exactly when each of its ten fields passes,
    and the model holds what each field passed as. *)
Lemma parse_request_accepted (body : request_body) (config : ConfigurationRequest) :
  parse_request convert body = Return config ↔
  (v ← required (as_str convert) (body_api_base_url body);
   match validate_https_url v with
   | Return v => Some v
   | Raise _ => None
   end) = Some (api_base_url config) ∧
  required (as_str convert) (body_api_key body) = Some (api_key config) ∧
  optional (as_str convert) (Some "") (body_api_secret body) = Some (api_secret config) ∧
  optional (as_float convert) (Some 0.02%float) (body_risk_free_rate body) =
    Some (risk_free_rate config) ∧
  optional (as_int convert) (Some 300) (body_rebalance_interval body) =
    Some (rebalance_interval config) ∧
  optional (as_float convert) None (body_target_sharpe body) =
    Some (target_sharpe config) ∧
  optional (as_int convert) (Some 60) (body_cov_window body) = Some (cov_window config) ∧
  optional (as_str convert) (Some "/prices") (body_price_endpoint body) =
    Some (price_endpoint config) ∧
  optional (as_str convert) (Some "/positions") (body_position_endpoint body) =
    Some (position_endpoint config) ∧
  optional (as_str convert) (Some "audit.log") (body_audit_log_path body) =
    Some (audit_log_path config).
Proof.
  unfold parse_request. cbv zeta. split.
  - repeat case_match; try done. by intros [= <-].
  - intros (-> & -> & -> & -> & -> & -> & -> & -> & -> & ->). by destruct config.
Qed.

(** What an optional field passed as is what the request gave for it. *)
Lemma optional_str_taken_from (given : field pyval) (d value : option string) :
  optional (as_str convert) d given = Some value →
  taken_from convert JStr given (opt PStr d) (opt PStr value).
Proof.
  destruct given as [|v]; cbn; [by intros [= <-]|].
  destruct v; cbn; try (by intros [= <-]);
    destruct (str_of convert _); cbn; by intros [= <-].
Qed.

Lemma optional_int_taken_from (given : field pyval) (d value : option Z) :
  optional (as_int convert) d given = Some value →
  taken_from convert JInt given (opt PInt d) (opt PInt value).
Proof.
  destruct given as [|v]; cbn; [by intros [= <-]|].
  destruct v; cbn; try (by intros [= <-]);
    destruct (int_of convert _); cbn; by intros [= <-].
Qed.

Lemma optional_float_taken_from (given : field pyval) (d value : option float) :
  optional (as_float convert) d given = Some value →
  taken_from convert JFloat given (opt PFloat d) (opt PFloat value).
Proof.
  destruct given as [|v]; cbn; [by intros [= <-]|].
  destruct v; cbn; try (by intros [= <-]);
    destruct (float_of convert _); cbn; by intros [= <-].
Qed.

(** C5. The configuration file [configure] writes for an accepted
    request is the JSON object with exactly the seven fields
    risk_free_rate, rebalance_interval, target_sharpe, cov_window,
    price_endpoint, position_endpoint and audit_log_path, in this order,
    each holding the value the request gave for it, or the default of
    the field when the request left it out. *)
Theorem configure_writes_config_file
    (body : request_body) (config : ConfigurationRequest) (w : world) :
  parse_request convert body = Return config →
  ∃ rate interval sharpe window prices positions path,
    files (post_configure json_dumps convert body w).2 !! "config.json" =
      Some (json_dumps (PDict [
        ("risk_free_rate", rate);
        ("rebalance_interval", interval);
        ("target_sharpe", sharpe);
        ("cov_window", window);
        ("price_endpoint", prices);
        ("position_endpoint", positions);
        ("audit_log_path", path)
      ])) ∧
    taken_from convert JFloat (body_risk_free_rate body) (PFloat 0.02%float) rate ∧
    taken_from convert JInt (body_rebalance_interval body) (PInt 300) interval ∧
    taken_from convert JFloat (body_target_sharpe body) PNone sharpe ∧
    taken_from convert JInt (body_cov_window body) (PInt 60) window ∧
    taken_from convert JStr (body_price_endpoint body) (PStr "/prices") prices ∧
    taken_from convert JStr (body_position_endpoint body) (PStr "/positions") positions ∧
    taken_from convert JStr (body_audit_log_path body) (PStr "audit.log") path.
Proof.
  intros Hparse. unfold post_configure. rewrite Hparse.
  apply parse_request_accepted in Hparse
    as (_ & _ & _ & Hrate & Hinterval & Hsharpe & Hwindow & Hprices & Hpositions & Hpath).
  exists (opt PFloat (risk_free_rate config)), (opt PInt (rebalance_interval config)),
    (opt PFloat (target_sharpe config)), (opt PInt (cov_window config)),
    (opt PStr (price_endpoint config)), (opt PStr (position_endpoint config)),
    (opt PStr (audit_log_path config)).
  split_and!.
  - rewrite configure_service_files by done. by rewrite lookup_insert_eq.
  - exact (optional_float_taken_from _ _ _ Hrate).
  - exact (optional_int_taken_from _ _ _ Hinterval).
  - exact (optional_float_taken_from _ _ _ Hsharpe).
  - exact (optional_int_taken_from _ _ _ Hwindow).
  - exact (optional_str_taken_from _ _ _ Hprices).
  - exact (optional_str_taken_from _ _ _ Hpositions).
  - exact (optional_str_taken_from _ _ _ Hpath).
Qed.

Lemma parse_request_refused (body : request_body) (url : string) :
  body_api_base_url body = Given (PStr url) →
  Text.startswith "https://" url = false →
  ∃ refused, parse_request convert body = Raise (RequestValidationError refused).
Proof.
  intros Hurl Hplain. unfold parse_request, validate_https_url.
  rewrite Hurl. cbn [required as_str mbind option_bind]. rewrite Hplain. cbn [negb].
  eauto.
Qed.

(** C8. A configure request whose api_base_url does not begin with
    https:// is refused with a validation error, and nothing has been
    done by then: no file written, no process touched, no call made. *)
Theorem configure_requires_https (body : request_body) (url : string) (w : world) :
  body_api_base_url body = Given (PStr url) →
  Text.startswith "https://" url = false →
  ∃ refused,
    post_configure json_dumps convert body w = (Raise (RequestValidationError refused), w).
Proof.
  intros Hurl Hplain.
  destruct (parse_request_refused body url Hurl Hplain) as [refused Hrefused].
  exists refused. unfold post_configure. rewrite Hrefused.
  reflexivity.
Qed.

(** A request is accepted only with an HTTPS venue URL. *)
Lemma configure_accepted_only_https (body : request_body) (w : world) (answer : pyval) :
  (post_configure json_dumps convert body w).1 = Return answer →
  ∃ v url,
    body_api_base_url body = Given v ∧ as_str convert v = Some url ∧
    Text.startswith "https://" url = true.
Proof.
  unfold post_configure.
  destruct (parse_request convert body) as [config|e] eqn:Hparse; [|done].
  intros _. apply parse_request_accepted in Hparse as (Hurl & _).
  destruct (body_api_base_url body) as [|v]; [done|]. cbn [required] in Hurl.
  destruct (as_str convert v) as [url|] eqn:Hv; [|done]. cbn in Hurl.
  exists v, url. split_and!; [done..|].
  unfold validate_https_url in Hurl.
  by destruct (Text.startswith "https://" url).
Qed.

(** *** The credential file *)

Lemma append_nil_l (s : string) : "" +:+ s = s.
Proof. reflexivity. Qed.

Lemma append_cons (x : ascii) (a b : string) : String x a +:+ b = String x (a +:+ b).
Proof. reflexivity. Qed.

Lemma append_assoc (a b c : string) : (a +:+ b) +:+ c = a +:+ b +:+ c.
Proof.
  induction a as [|x a IH]; [done|].
  rewrite !append_cons. by f_equal.
Qed.

Lemma line_break_free_app (a b : string) :
  line_break_free (a +:+ b) = line_break_free a && line_break_free b.
Proof.
  induction a as [|x a IH]; [done|].
  rewrite append_cons. simpl. rewrite IH. by rewrite andb_assoc.
Qed.

Lemma universal_newlines_line (a rest : string) :
  line_break_free a = true →
  Text.universal_newlines (a +:+ String Text.LF rest) =
    a +:+ String Text.LF (Text.universal_newlines rest).
Proof.
  induction a as [|x a IH]; [done|].
  rewrite !append_cons. simpl.
  intros [[_ Hcr]%andb_prop Hfree]%andb_prop.
  apply negb_true_iff in Hcr. rewrite Hcr. by rewrite IH.
Qed.

Lemma split_lines_line (cur a rest : string) :
  line_break_free a = true →
  Text.split_lines cur (a +:+ String Text.LF rest) =
    (cur +:+ a +:+ String Text.LF "") :: Text.split_lines "" rest.
Proof.
  revert cur. induction a as [|x a IH]; intros cur; [done|].
  rewrite !append_cons. simpl.
  intros [[Hlf _]%andb_prop Hfree]%andb_prop.
  apply negb_true_iff in Hlf. rewrite Hlf.
  rewrite IH by done. by rewrite append_assoc.
Qed.

Lemma readlines_two_lines (a b : string) :
  line_break_free a = true →
  line_break_free b = true →
  Text.readlines (a +:+ String Text.LF (b +:+ String Text.LF "")) =
    [a +:+ String Text.LF ""; b +:+ String Text.LF ""].
Proof.
  intros Ha Hb. unfold Text.readlines.
  rewrite universal_newlines_line by done.
  rewrite universal_newlines_line by done. simpl.
  rewrite split_lines_line by done.
  by rewrite split_lines_line by done.
Qed.

Lemma env_content_shape (url key : string) :
  "API_URL=" +:+ url +:+ String Text.LF "" +:+ "API_TOKEN=" +:+ key +:+ String Text.LF "" =
  ("API_URL=" +:+ url) +:+ String Text.LF (("API_TOKEN=" +:+ key) +:+ String Text.LF "").
Proof. rewrite !append_assoc. reflexivity. Qed.

(** C6, as amended. For a configure request whose venue URL and token
    hold no line break, the credential file consists of exactly two
    lines, [API_URL=] with the URL and [API_TOKEN=] with the token; the
    api_secret of the request is nowhere in it. *)
Theorem credential_file_two_lines
    (body : request_body) (config : ConfigurationRequest) (w : world) :
  parse_request convert body = Return config →
  line_break_free (api_base_url config) = true →
  line_break_free (api_key config) = true →
  ∃ content,
    files (post_configure json_dumps convert body w).2 !! ".env" = Some content ∧
    Text.readlines content =
      ["API_URL=" +:+ api_base_url config +:+ String Text.LF "";
       "API_TOKEN=" +:+ api_key config +:+ String Text.LF ""].
Proof.
  intros Hparse Hurl Hkey. unfold post_configure. rewrite Hparse.
  eexists. split.
  - rewrite configure_service_files by done.
    rewrite lookup_insert_ne by done. by rewrite lookup_insert_eq.
  - rewrite env_content_shape, readlines_two_lines.
    + by rewrite !append_assoc.
    + by rewrite line_break_free_app.
    + by rewrite line_break_free_app.
Qed.

End ConfigureProperties.

Lemma configure_writes_config_file_witness :
  ∃ rate interval sharpe window prices positions path,
    files (post_configure JsonLite.dumps Samples.strict Samples.tuned_body
             Samples.fresh_world).2 !! "config.json" =
      Some (JsonLite.dumps (PDict [
        ("risk_free_rate", rate);
        ("rebalance_interval", interval);
        ("target_sharpe", sharpe);
        ("cov_window", window);
        ("price_endpoint", prices);
        ("position_endpoint", positions);
        ("audit_log_path", path)
      ])) ∧
    rate = PFloat 0.5%float ∧
    interval = PInt 120 ∧
    sharpe = PFloat 1.5%float ∧
    window = PNone ∧
    prices = PStr "/prices" ∧
    positions = PStr "/v2/positions" ∧
    path = PStr "trail.log".
Proof.
  refine (configure_writes_config_file JsonLite.dumps Samples.strict Samples.tuned_body
            {| api_base_url := "https://venue.example/api";
               api_key := "token-1";
               api_secret := Some "";
               risk_free_rate := Some 0.5%float;
               rebalance_interval := Some 120;
               target_sharpe := Some 1.5%float;
               cov_window := None;
               price_endpoint := Some "/prices";
               position_endpoint := Some "/v2/positions";
               audit_log_path := Some "trail.log" |}
            Samples.fresh_world _).
  vm_compute. reflexivity.
Defined.

Lemma configure_requires_https_witness :
  ∃ refused,
    post_configure JsonLite.dumps Samples.strict Samples.plain_http_body
      Samples.fresh_world =
      (Raise (RequestValidationError refused), Samples.fresh_world).
Proof.
  refine (configure_requires_https JsonLite.dumps Samples.strict Samples.plain_http_body
            "http://venue.example/api" Samples.fresh_world _ _).
  - reflexivity.
  - vm_compute. reflexivity.
Defined.

Lemma credential_file_two_lines_witness :
  ∃ content,
    files (post_configure JsonLite.dumps Samples.strict Samples.minimal_body
             Samples.fresh_world).2 !! ".env" = Some content ∧
    Text.readlines content =
      ["API_URL=" +:+ "https://venue.example/api" +:+ String Text.LF "";
       "API_TOKEN=" +:+ "token-1" +:+ String Text.LF ""].
Proof.
  refine (credential_file_two_lines JsonLite.dumps Samples.strict Samples.minimal_body
            {| api_base_url := "https://venue.example/api";
               api_key := "token-1";
               api_secret := Some "";
               risk_free_rate := Some 0.02%float;
               rebalance_interval := Some 300;
               target_sharpe := None;
               cov_window := Some 60;
               price_endpoint := Some "/prices";
               position_endpoint := Some "/positions";
               audit_log_path := Some "audit.log" |}
            Samples.fresh_world _ _ _).
  - vm_compute. reflexivity.
  - vm_compute. reflexivity.
  - vm_compute. reflexivity.
Defined.

(** C6, as stated, fails: a token that carries a line break leaves a
    credential file of three lines. *)
Lemma credential_file_three_lines :
  ∃ config content,
    parse_request Samples.strict Samples.two_line_token_body = Return config ∧
    files (post_configure JsonLite.dumps Samples.strict Samples.two_line_token_body
             Samples.fresh_world).2 !! ".env" = Some content ∧
    Text.readlines content =
      ["API_URL=https://venue.example/api" +:+ String Text.LF "";
       "API_TOKEN=token-1" +:+ String Text.LF "";
       "API_URL=https://other.example" +:+ String Text.LF ""].
Proof.
  eexists _, _. split_and!.
  - vm_compute. reflexivity.
  - vm_compute. reflexivity.
  - vm_compute. reflexivity.
Qed.

(** ** The configuration snapshot *)

Lemma violation_rejects (c : Config.PortfolioConfig) (r : Config.rule) :
  r ∈ Config.violations c → Config.construct c = inl (Config.violations c).
Proof.
  unfold Config.construct. destruct (Config.violations c); [|done].
  by intros ?%elem_of_nil.
Qed.

Lemma check_listed (r : Config.rule) : r ∈ Config.check true r.
Proof. apply list_elem_of_singleton. done. Qed.

(** C3. Constructing a [PortfolioConfig] fails, and the snapshot in force
    stays in force, whenever the asset list is empty, a symbol is
    repeated, the risk-free rate lies outside [0,1] or the minimum weight
    is not below the maximum; the error lists every one of these rules
    that is violated. The list BTC, ETH, BTC fails with the
    duplicate-symbol error. *)
Theorem invalid_config_never_active
    (c : Config.PortfolioConfig) (active : option Config.PortfolioConfig) :
  let empty := Config.assets c = [] in
  let repeated := ¬ NoDup (Config.assets c) in
  let rate_outside :=
    PrimFloat.leb 0 (Config.risk_free_rate c)
    && PrimFloat.leb (Config.risk_free_rate c) 1 = false in
  let bounds_crossed :=
    PrimFloat.ltb (Config.min_weight_per_asset c) (Config.max_weight_per_asset c)
    = false in
  (empty ∨ repeated ∨ rate_outside ∨ bounds_crossed →
   ∃ errors,
     Config.construct c = inl errors ∧
     Config.activate active c = active ∧
     (empty → Config.EmptyAssets ∈ errors) ∧
     (repeated → Config.DuplicateSymbols ∈ errors) ∧
     (rate_outside → Config.RiskFreeRateRange ∈ errors) ∧
     (bounds_crossed → Config.WeightBounds ∈ errors)) ∧
  (Config.assets c = ["BTC"; "ETH"; "BTC"] →
   ∃ errors,
     Config.construct c = inl errors ∧
     Config.DuplicateSymbols ∈ errors ∧
     Config.message Config.DuplicateSymbols = Some "Duplicate asset symbols found").
Proof.
  intros empty repeated rate_outside bounds_crossed.
  assert (Hempty : empty → Config.EmptyAssets ∈ Config.violations c).
  { intros He. unfold Config.violations. rewrite bool_decide_eq_true_2 by done.
    apply elem_of_app. left. apply check_listed. }
  assert (Hrep : repeated → Config.DuplicateSymbols ∈ Config.violations c).
  { intros Hr. unfold Config.violations. rewrite (bool_decide_eq_false_2 (NoDup _)) by done.
    apply elem_of_app. right. apply elem_of_app. left. apply check_listed. }
  assert (Hrate : rate_outside → Config.RiskFreeRateRange ∈ Config.violations c).
  { intros Hr. unfold Config.violations. rewrite Hr.
    do 2 (apply elem_of_app; right). apply elem_of_app. left. apply check_listed. }
  assert (Hbounds : bounds_crossed → Config.WeightBounds ∈ Config.violations c).
  { intros Hb. unfold Config.violations. rewrite Hb.
    do 3 (apply elem_of_app; right). apply elem_of_app. left. apply check_listed. }
  split.
  - intros Hviolated. exists (Config.violations c).
    assert (Hrejected : Config.construct c = inl (Config.violations c)).
    { destruct Hviolated as [H|[H|[H|H]]];
        eapply violation_rejects; eauto. }
    split_and!; try done.
    unfold Config.activate. by rewrite Hrejected.
  - intros Hassets. exists (Config.violations c).
    assert (Hr : repeated).
    { unfold repeated. rewrite Hassets. intros Hnodup.
      apply NoDup_cons in Hnodup as [Hnotin _]. apply Hnotin.
      apply elem_of_cons. right. by apply list_elem_of_singleton. }
    split_and!; [eapply violation_rejects; eauto|auto|done].
Qed.

Lemma invalid_config_never_active_witness :
  (∃ errors,
     Config.construct Samples.repeated_symbol_config = inl errors ∧
     Config.activate None Samples.repeated_symbol_config = None ∧
     Config.DuplicateSymbols ∈ errors) ∧
  (∃ errors,
     Config.construct Samples.repeated_symbol_config = inl errors ∧
     Config.DuplicateSymbols ∈ errors ∧
     Config.message Config.DuplicateSymbols = Some "Duplicate asset symbols found").
Proof.
  assert (Hrepeated : ¬ NoDup (Config.assets Samples.repeated_symbol_config)).
  { apply (bool_decide_eq_false_1 (NoDup _)). vm_compute. reflexivity. }
  destruct (invalid_config_never_active Samples.repeated_symbol_config None)
    as [Hrejected Hexample].
  split.
  - destruct Hrejected as (errors & Hc & Ha & _ & Hdup & _); [right; by left|].
    exists errors. split_and!; [done..|by apply Hdup].
  - apply Hexample. reflexivity.
Defined.

(** ** Starting the engine *)

Lemma digits_step (acc k : Z) (after_digit : bool) (c : ascii) (r : string) :
  Text.digit_of c = Some k →
  Text.digits acc after_digit (String c r) = Text.digits (10 * acc + k) true r.
Proof. intros Hk. cbn [Text.digits]. by rewrite Hk. Qed.

(** Reads the leading digit [k] of the goal's string and brings the
    accumulator to the form the conversion of [Decimal] uses. *)
Ltac read_digit k :=
  rewrite (digits_step _ k) by reflexivity;
  try match goal with
  | |- Text.digits ?a true _ = Some (Z.pos (Pos.of_uint_acc _ ?b)) =>
      replace a with (Z.pos b) by lia
  end.

Lemma digits_of_uint_acc (d : Decimal.uint) (acc : positive) :
  Text.digits (Z.pos acc) true (NilEmpty.string_of_uint d) =
    Some (Z.pos (Pos.of_uint_acc d acc)).
Proof.
  revert acc.
  induction d as [|d IH|d IH|d IH|d IH|d IH|d IH|d IH|d IH|d IH|d IH]; intros acc;
    cbn [NilEmpty.string_of_uint Pos.of_uint_acc]; [done|..].
  - read_digit 0. apply IH.
  - read_digit 1. apply IH.
  - read_digit 2. apply IH.
  - read_digit 3. apply IH.
  - read_digit 4. apply IH.
  - read_digit 5. apply IH.
  - read_digit 6. apply IH.
  - read_digit 7. apply IH.
  - read_digit 8. apply IH.
  - read_digit 9. apply IH.
Qed.

Lemma digits_of_uint (d : Decimal.uint) (after_digit : bool) :
  d ≠ Decimal.Nil →
  Text.digits 0 after_digit (NilEmpty.string_of_uint d) = Some (Z.of_N (Pos.of_uint d)).
Proof.
  revert after_digit.
  induction d as [|d IH|d IH|d IH|d IH|d IH|d IH|d IH|d IH|d IH|d IH];
    intros after_digit Hd; cbn [NilEmpty.string_of_uint Pos.of_uint]; [done| |..].
  - read_digit 0.
    assert (d = Decimal.Nil ∨ d ≠ Decimal.Nil) as [->|Hne]
      by (destruct d; [by left|by right..]); [done|].
    by apply IH.
  - read_digit 1. apply (digits_of_uint_acc d 1).
  - read_digit 2. apply (digits_of_uint_acc d 2).
  - read_digit 3. apply (digits_of_uint_acc d 3).
  - read_digit 4. apply (digits_of_uint_acc d 4).
  - read_digit 5. apply (digits_of_uint_acc d 5).
  - read_digit 6. apply (digits_of_uint_acc d 6).
  - read_digit 7. apply (digits_of_uint_acc d 7).
  - read_digit 8. apply (digits_of_uint_acc d 8).
  - read_digit 9. apply (digits_of_uint_acc d 9).
Qed.

Lemma string_of_uint_plain (d : Decimal.uint) :
  Text.lstrip (NilEmpty.string_of_uint d) = NilEmpty.string_of_uint d ∧
  Text.rstrip (NilEmpty.string_of_uint d) = NilEmpty.string_of_uint d ∧
  Text.universal_newlines (NilEmpty.string_of_uint d) = NilEmpty.string_of_uint d.
Proof.
  split_and!.
  - by destruct d.
  - induction d as [|d IH|d IH|d IH|d IH|d IH|d IH|d IH|d IH|d IH|d IH];
      cbn [NilEmpty.string_of_uint Text.rstrip]; [done|..];
      rewrite IH; destruct (NilEmpty.string_of_uint d); reflexivity.
  - induction d as [|d IH|d IH|d IH|d IH|d IH|d IH|d IH|d IH|d IH|d IH];
      cbn [NilEmpty.string_of_uint]; [done|..];
      cbn [Text.universal_newlines]; by rewrite IH.
Qed.

(** [int(str(n)) == n], also through [strip] and a text-mode read. *)
Lemma py_int_str_int (n : Z) :
  Text.py_int (Text.strip (Text.universal_newlines (Text.str_int n))) = Some n.
Proof.
  unfold Text.str_int.
  destruct n as [|p|p]; [done| |];
    cbn [Z.to_int NilZero.string_of_int];
    assert (Hne : Pos.to_uint p ≠ Decimal.Nil)
      by (intros Hnil; pose proof (DecimalPos.Unsigned.of_to p) as Hp;
          by rewrite Hnil in Hp);
    pose proof (digits_of_uint (Pos.to_uint p) false Hne) as Hdigits;
    rewrite DecimalPos.Unsigned.of_to in Hdigits;
    destruct (string_of_uint_plain (Pos.to_uint p)) as (Hl & Hr & Huni);
    unfold NilZero.string_of_uint.
  - assert (Hstrip : Text.strip (NilEmpty.string_of_uint (Pos.to_uint p)) =
                     NilEmpty.string_of_uint (Pos.to_uint p))
      by (unfold Text.strip; by rewrite Hl, Hr).
    destruct (Pos.to_uint p) eqn:Hd; [done|..];
      rewrite Huni, Hstrip; unfold Text.py_int; rewrite Hstrip;
      cbn [NilEmpty.string_of_uint] in *; exact Hdigits.
  - assert (Hstrip : Text.strip (String "-" (NilEmpty.string_of_uint (Pos.to_uint p))) =
                     String "-" (NilEmpty.string_of_uint (Pos.to_uint p))).
    { unfold Text.strip. cbn [Text.lstrip]. change (Text.is_space "-") with false.
      cbv iota. cbn [Text.rstrip]. rewrite Hr.
      by destruct (Pos.to_uint p). }
    assert (Huni' :
      Text.universal_newlines (String "-" (NilEmpty.string_of_uint (Pos.to_uint p))) =
      String "-" (NilEmpty.string_of_uint (Pos.to_uint p))).
    { cbn [Text.universal_newlines]. change (Ascii.eqb "-" Text.CR) with false.
      cbv iota. by rewrite Huni. }
    destruct (Pos.to_uint p) eqn:Hd; [done|..];
      rewrite Huni', Hstrip; unfold Text.py_int; rewrite Hstrip;
      by rewrite Hdigits.
Qed.

Lemma find_process_inserted (pid : Z) (p : process) (table : list (Z * process)) :
  find_process pid (insert_process pid p table) = Some p.
Proof.
  induction table as [|[q p'] table IH]; cbn [insert_process find_process].
  - by rewrite Z.eqb_refl.
  - destruct (Z.ltb_spec pid q) as [Hlt|Hge]; cbn [find_process].
    + by rewrite Z.eqb_refl.
    + destruct (Z.eqb_spec pid q) as [->|Hne]; cbn [find_process].
      * by rewrite Z.eqb_refl.
      * by rewrite (proj2 (Z.eqb_neq q pid)) by done.
Qed.

Lemma is_project_running_by_pid_file
    (w : world) (text : string) (pid : Z) (p : process) (argv : list string) :
  files w !! project_pid_file = Some text →
  Text.py_int (Text.strip (Text.universal_newlines text)) = Some pid →
  0 ≤ pid →
  pid < pid_limit →
  find_process pid (procs w) = Some p →
  cmdline p = Some argv →
  Text.contains "project.py" (Text.join " " argv) = true →
  is_project_running w = (true, Some pid).
Proof.
  intros Hfile Hint Hpid Hsmall Hfind Hargv Hmatch.
  unfold is_project_running, is_project_running_body.
  rewrite bool_decide_eq_true_2 by eauto.
  unfold open_read. rewrite Hfile. cbn [mbind outcome_bind]. rewrite Hint.
  cbn [from_option mbind outcome_bind]. unfold pid_exists.
  rewrite (proj2 (Z.ltb_ge pid 0)) by done.
  rewrite (proj2 (Z.leb_gt pid_limit pid)) by done. cbn [mbind outcome_bind].
  rewrite bool_decide_eq_true_2 by eauto.
  unfold psutil_Process. rewrite Hfind. cbn [mbind outcome_bind].
  unfold process_cmdline. rewrite Hargv. cbn [mbind outcome_bind].
  by rewrite Hmatch.
Qed.

Lemma start_project_service_runs
    (w : world) (pid : Z) (b : behaviour) (script : list popen_reply) :
  popen_script w = PopenRuns pid b :: script →
  start_project_service w =
    (Return pid,
     set_files (insert project_pid_file (Text.str_int pid))
       (add_event (EvWrite project_pid_file)
          (set_procs (insert_process pid (Process (Some ["python"; "project.py"]) b))
             (set_popen_script script (add_event (EvPopen ["python"; "project.py"]) w))))).
Proof.
  intros Hscript.
  unfold start_project_service, catch, bind, Popen, bind, emit, write_file, bind, emit, ret.
  cbn [popen_script add_event]. by rewrite Hscript.
Qed.

Lemma start_project_service_fails (w : world) :
  head (popen_script w) = None ∨ head (popen_script w) = Some PopenRaises →
  ∃ w',
    start_project_service w =
      (Raise (Exception "Failed to start project.py: " (Some OSError)), w') ∧
    files w' = files w ∧ procs w' = procs w.
Proof.
  intros Hhead.
  unfold start_project_service, catch, bind, Popen, bind, emit, write_file, bind, emit,
    ret, raise.
  cbn [popen_script add_event].
  destruct (popen_script w) as [|[|pid b|pid] script]; cbn [head] in Hhead;
    [|by eauto| |]; [by eauto|by destruct Hhead..].
Qed.

Lemma catch_bind_raise {A B} (m : M A) (k : A → M B) (h : exn → M B)
    (w w' : world) (e : exn) :
  m w = (Raise e, w') → catch (bind m k) h w = h e w'.
Proof. unfold catch, bind. by intros ->. Qed.

Lemma stop_project_service_script (w : world) :
  popen_script (stop_project_service w).2 = popen_script w.
Proof.
  destruct (is_project_running w) as [running [pid|]] eqn:Hrun.
  2: { by rewrite stop_project_service_idle by (rewrite Hrun; congruence). }
  destruct running.
  2: { by rewrite stop_project_service_idle by (rewrite Hrun; congruence). }
  destruct (decide (pid = 0)) as [->|Hpid].
  { by rewrite stop_project_service_idle by (rewrite Hrun; congruence). }
  destruct (is_project_running_in_table w pid Hrun) as [p Hfind].
  rewrite (stop_project_service_running w pid p Hrun Hpid Hfind).
  assert (Hrem : ∀ w', popen_script (pid_file_removed w') = popen_script w').
  { intros w'. unfold pid_file_removed. by destruct (files w' !! project_pid_file). }
  destruct (on_terminate (replies p)), (on_wait (replies p)), (on_kill (replies p));
    cbv zeta; cbn [snd]; by rewrite ?Hrem.
Qed.

(** X17. An engine that [start_project_service] launched is found again:
    the pid written to the pid file reads back as the same number, and
    [is_project_running] reports that pid. The pid is one the platform
    can give a process, a number below [pid_limit]. *)
Theorem started_engine_is_found
    (w : world) (pid : Z) (b : behaviour) (script : list popen_reply) :
  popen_script w = PopenRuns pid b :: script →
  0 ≤ pid →
  pid < pid_limit →
  (start_project_service w).1 = Return pid ∧
  files (start_project_service w).2 !! project_pid_file = Some (Text.str_int pid) ∧
  is_project_running (start_project_service w).2 = (true, Some pid).
Proof.
  intros Hscript Hpid Hsmall.
  rewrite (start_project_service_runs w pid b script Hscript).
  cbn [fst snd]. split_and!; [done|apply lookup_insert_eq|].
  eapply is_project_running_by_pid_file; cbn [files procs set_files set_procs add_event
    set_popen_script].
  - apply lookup_insert_eq.
  - apply py_int_str_int.
  - done.
  - done.
  - apply find_process_inserted.
  - reflexivity.
  - reflexivity.
Qed.

Section ConfigureOutcomes.

Variable json_dumps : pyval → string.

(** X18. When the engine starts and stays up, with a pid below
    [pid_limit], [configure] answers with the success message naming the
    new pid, and the engine is the one [is_project_running] finds
    afterwards. *)
Theorem configure_reports_started_engine
    (config : ConfigurationRequest) (w : world)
    (pid : Z) (b : behaviour) (script : list popen_reply) :
  popen_script w = PopenRuns pid b :: script →
  0 ≤ pid →
  pid < pid_limit →
  (configure_service json_dumps config w).1 =
    Return (PDict [
      ("message",
       PStr ("Portfolio service configured and started successfully (PID: "
             +:+ Text.str_int pid +:+ ")"));
      ("service_status", PStr "running")]) ∧
  is_project_running (configure_service json_dumps config w).2 = (true, Some pid).
Proof.
  intros Hscript Hpid Hsmall. unfold configure_service.
  destruct (stop_project_service_returns w) as [stopped Hb].
  pose proof (stop_project_service_script w) as Hkept.
  destruct (stop_project_service w) as [o w1] eqn:Hstop. simpl in Hb, Hkept. subst o.
  rewrite (catch_bind_return _ _ _ w w1 stopped Hstop).
  erewrite (catch_bind_return _ _ _ w1 _ tt); [|reflexivity].
  erewrite (catch_bind_return _ _ _ _ _ tt); [|reflexivity].
  erewrite (catch_bind_return _ _ _ _ _ pid);
    [|apply (start_project_service_runs _ pid b script);
      cbn [popen_script set_files add_event]; by rewrite Hkept, Hscript].
  erewrite (catch_bind_return _ _ _ _ _ tt); [|reflexivity].
  match goal with
  | |- context [catch _ _ ?w5] =>
      assert (Hrun : is_project_running w5 = (true, Some pid))
  end.
  { eapply is_project_running_by_pid_file;
      cbn [files procs set_files set_procs add_event set_popen_script].
    - apply lookup_insert_eq.
    - apply py_int_str_int.
    - done.
    - done.
    - apply find_process_inserted.
    - reflexivity.
    - reflexivity. }
  unfold catch, bind, lift. rewrite Hrun. cbn [fst snd negb ret str_pid].
  by rewrite Hrun.
Qed.

(** X19. When the engine cannot be launched, [configure] answers 400, and
    nothing is rolled back: the new credential and configuration files
    are in place, and the processes are as the stop left them. *)
Theorem configure_failure_keeps_new_files (config : ConfigurationRequest) (w : world) :
  head (popen_script w) = None ∨ head (popen_script w) = Some PopenRaises →
  (configure_service json_dumps config w).1 =
    Raise (HTTPException 400 "Configuration failed: "
             (Some (Exception "Failed to start project.py: " (Some OSError)))) ∧
  files (configure_service json_dumps config w).2 !! "config.json" =
    Some (json_dumps (config_data config)) ∧
  files (configure_service json_dumps config w).2 !! ".env" =
    Some ("API_URL=" +:+ api_base_url config +:+ String Text.LF "" +:+
          "API_TOKEN=" +:+ api_key config +:+ String Text.LF "") ∧
  procs (configure_service json_dumps config w).2 = procs (stop_project_service w).2.
Proof.
  intros Hhead.
  split_and!.
  2: { rewrite configure_service_files by done. apply lookup_insert_eq. }
  2: { rewrite configure_service_files by done.
       rewrite lookup_insert_ne by done. apply lookup_insert_eq. }
  all: unfold configure_service;
    destruct (stop_project_service_returns w) as [stopped Hb];
    pose proof (stop_project_service_script w) as Hkept;
    destruct (stop_project_service w) as [o w1] eqn:Hstop; simpl in Hb, Hkept; subst o;
    rewrite (catch_bind_return _ _ _ w w1 stopped Hstop);
    (erewrite (catch_bind_return _ _ _ w1 _ tt); [|reflexivity]);
    (erewrite (catch_bind_return _ _ _ _ _ tt); [|reflexivity]);
    match goal with
    | |- context [catch (bind start_project_service _) _ ?w3] =>
        destruct (start_project_service_fails w3) as (w4 & Hstart & Hfiles & Hprocs);
          [cbn [popen_script set_files add_event]; by rewrite Hkept|]
    end;
    rewrite (catch_bind_raise _ _ _ _ w4 _ Hstart); cbn [raise fst snd].
  - done.
  - by rewrite Hprocs.
Qed.

End ConfigureOutcomes.

(** X20. [restart] with an engine that starts and stays up, with a pid
    below [pid_limit], answers with the success message naming the new
    pid; when the engine cannot be launched it answers 500 and leaves
    the files and processes as the stop left them, so nothing is running
    in place of the old engine. *)
Theorem restart_outcomes (w : world) :
  (∀ pid b script,
     popen_script w = PopenRuns pid b :: script →
     0 ≤ pid →
     pid < pid_limit →
     (restart_service w).1 =
       Return (PDict [
         ("message",
          PStr ("Portfolio service restarted successfully (PID: "
                +:+ Text.str_int pid +:+ ")"))]) ∧
     is_project_running (restart_service w).2 = (true, Some pid)) ∧
  (head (popen_script w) = None ∨ head (popen_script w) = Some PopenRaises →
     (restart_service w).1 =
       Raise (HTTPException 500 "Failed to restart service: "
                (Some (Exception "Failed to start project.py: " (Some OSError)))) ∧
     files (restart_service w).2 = files (stop_project_service w).2 ∧
     procs (restart_service w).2 = procs (stop_project_service w).2).
Proof.
  destruct (stop_project_service_returns w) as [stopped Hb].
  pose proof (stop_project_service_script w) as Hkept.
  destruct (stop_project_service w) as [o w1] eqn:Hstop. simpl in Hb, Hkept. subst o.
  cbn [snd]. unfold restart_service.
  rewrite (catch_bind_return _ _ _ w w1 stopped Hstop).
  erewrite (catch_bind_return _ _ _ w1 _ tt); [|reflexivity].
  split.
  - intros pid b script Hscript Hpid Hsmall.
    erewrite (catch_bind_return _ _ _ _ _ pid);
      [|apply (start_project_service_runs _ pid b script);
        cbn [popen_script sleep emit add_event]; by rewrite Hkept, Hscript].
    erewrite (catch_bind_return _ _ _ _ _ tt); [|reflexivity].
    match goal with
    | |- context [catch _ _ ?w5] =>
        assert (Hrun : is_project_running w5 = (true, Some pid))
    end.
    { eapply is_project_running_by_pid_file;
        cbn [files procs set_files set_procs add_event set_popen_script].
      - apply lookup_insert_eq.
      - apply py_int_str_int.
      - done.
      - done.
      - apply find_process_inserted.
      - reflexivity.
      - reflexivity. }
    unfold catch, bind, lift. rewrite Hrun. cbn [fst snd ret str_pid].
    by rewrite Hrun.
  - intros Hhead.
    match goal with
    | |- context [catch (bind start_project_service _) _ ?w3] =>
        destruct (start_project_service_fails w3) as (w4 & Hstart & Hfiles & Hprocs);
          [cbn [popen_script sleep emit add_event]; by rewrite Hkept|]
    end.
    rewrite (catch_bind_raise _ _ _ _ w4 _ Hstart). cbn [raise fst snd].
    by rewrite Hfiles, Hprocs.
Qed.

(** ** An engine that exits at once *)

Lemma start_project_service_exits
    (w : world) (pid : Z) (script : list popen_reply) :
  popen_script w = PopenExits pid :: script →
  start_project_service w =
    (Return pid,
     set_files (insert project_pid_file (Text.str_int pid))
       (add_event (EvWrite project_pid_file)
          (set_procs (insert_process pid zombie)
             (set_popen_script script (add_event (EvPopen ["python"; "project.py"]) w))))).
Proof.
  intros Hscript.
  unfold start_project_service, catch, bind, Popen, bind, emit, write_file, bind, emit, ret.
  cbn [popen_script add_event]. by rewrite Hscript.
Qed.

(** A pid file that names a process without a readable command line
    ends the search for the engine. *)
Lemma is_project_running_unreadable
    (w : world) (text : string) (pid : Z) (p : process) :
  files w !! project_pid_file = Some text →
  Text.py_int (Text.strip (Text.universal_newlines text)) = Some pid →
  0 ≤ pid →
  find_process pid (procs w) = Some p →
  cmdline p = None →
  is_project_running w = (false, None).
Proof.
  intros Hfile Hint Hpid Hfind Hcmd.
  unfold is_project_running, is_project_running_body.
  rewrite bool_decide_eq_true_2 by eauto.
  unfold open_read. rewrite Hfile. cbn [mbind outcome_bind]. rewrite Hint.
  cbn [from_option mbind outcome_bind]. unfold pid_exists.
  rewrite (proj2 (Z.ltb_ge pid 0)) by done.
  destruct (pid_limit <=? pid); [done|]. cbn [mbind outcome_bind].
  rewrite bool_decide_eq_true_2 by eauto.
  unfold psutil_Process. rewrite Hfind. cbn [mbind outcome_bind].
  unfold process_cmdline. by rewrite Hcmd.
Qed.

Section ShortLivedEngine.

Variable json_dumps : pyval → string.

(** X22. When the engine that was launched exits at once, [configure]
    answers 400, service failed to start, and [restart] answers 500,
    whatever else runs: the pid file names the child that exited, whose
    command line cannot be read, and with that the search for an engine
    ends before the process table is scanned. *)
Theorem exited_engine_is_not_reported
    (config : ConfigurationRequest) (w : world) (pid : Z) (script : list popen_reply) :
  popen_script w = PopenExits pid :: script →
  0 ≤ pid →
  (configure_service json_dumps config w).1 =
    Raise (HTTPException 400 "Configuration failed: "
             (Some (Exception "Service failed to start" None))) ∧
  is_project_running (configure_service json_dumps config w).2 = (false, None) ∧
  (restart_service w).1 =
    Raise (HTTPException 500 "Failed to restart service: "
             (Some (HTTPException 500 "Service failed to restart" None))) ∧
  is_project_running (restart_service w).2 = (false, None).
Proof.
  intros Hscript Hpid.
  destruct (stop_project_service_returns w) as [stopped Hb].
  pose proof (stop_project_service_script w) as Hkept.
  destruct (stop_project_service w) as [o w1] eqn:Hstop. simpl in Hb, Hkept. subst o.
  assert (Hconfigure :
    ∃ w', configure_service json_dumps config w =
            (Raise (HTTPException 400 "Configuration failed: "
                      (Some (Exception "Service failed to start" None))), w') ∧
          is_project_running w' = (false, None)).
  { unfold configure_service.
    rewrite (catch_bind_return _ _ _ w w1 stopped Hstop).
    erewrite (catch_bind_return _ _ _ w1 _ tt); [|reflexivity].
    erewrite (catch_bind_return _ _ _ _ _ tt); [|reflexivity].
    erewrite (catch_bind_return _ _ _ _ _ pid);
      [|apply (start_project_service_exits _ pid script);
        cbn [popen_script set_files add_event]; by rewrite Hkept, Hscript].
    erewrite (catch_bind_return _ _ _ _ _ tt); [|reflexivity].
    match goal with
    | |- context [catch _ _ ?w5] =>
        assert (Hrun : is_project_running w5 = (false, None))
    end.
    { eapply (is_project_running_unreadable _ _ pid zombie);
        cbn [files procs set_files set_procs add_event set_popen_script].
      - apply lookup_insert_eq.
      - apply py_int_str_int.
      - done.
      - apply find_process_inserted.
      - reflexivity. }
    unfold catch, bind, lift. rewrite Hrun. cbn [fst snd negb raise]. eauto. }
  assert (Hrestart :
    ∃ w', restart_service w =
            (Raise (HTTPException 500 "Failed to restart service: "
                      (Some (HTTPException 500 "Service failed to restart" None))), w') ∧
          is_project_running w' = (false, None)).
  { unfold restart_service.
    rewrite (catch_bind_return _ _ _ w w1 stopped Hstop).
    erewrite (catch_bind_return _ _ _ w1 _ tt); [|reflexivity].
    erewrite (catch_bind_return _ _ _ _ _ pid);
      [|apply (start_project_service_exits _ pid script);
        cbn [popen_script sleep emit add_event]; by rewrite Hkept, Hscript].
    erewrite (catch_bind_return _ _ _ _ _ tt); [|reflexivity].
    match goal with
    | |- context [catch _ _ ?w5] =>
        assert (Hrun : is_project_running w5 = (false, None))
    end.
    { eapply (is_project_running_unreadable _ _ pid zombie);
        cbn [files procs set_files set_procs add_event set_popen_script].
      - apply lookup_insert_eq.
      - apply py_int_str_int.
      - done.
      - apply find_process_inserted.
      - reflexivity. }
    unfold catch, bind, lift. rewrite Hrun. cbn [fst snd raise]. eauto. }
  destruct Hconfigure as (wc & -> & Hc). destruct Hrestart as (wr & -> & Hr).
  by split_and!.
Qed.

End ShortLivedEngine.

(** ** More on the readers of the audit log *)

Section ReaderEdges.

Variable json_loads : string → outcome pyval.

Lemma recent_lines_nonpositive (limit : Z) (lines : list string) :
  limit ≤ 0 →
  recent_lines limit lines = drop (Z.to_nat (- limit)) lines.
Proof.
  intros Hle. unfold recent_lines, slice_from.
  destruct (Z.gtb_spec (Z.of_nat (length lines)) limit) as [Hgt|Hngt].
  - replace (- limit <? 0) with false by (symmetry; apply Z.ltb_ge; lia).
    destruct (Z.le_ge_cases (- limit) (Z.of_nat (length lines))) as [Hin|Hout].
    + by rewrite Z.min_l by done.
    + rewrite Z.min_r by done. rewrite Nat2Z.id.
      rewrite !drop_ge; [done|lia|lia].
  - assert (limit = 0 ∧ length lines = 0%nat) as [-> Hnil] by lia.
    by destruct lines.
Qed.

(** No line of [lines] fails when each of them decodes or raises
    [JSONDecodeError]. *)
Lemma no_line_failure (lines : list string) :
  (∀ line e, line ∈ lines → json_loads (Text.strip line) = Raise e → e = JSONDecodeError) →
  omap (line_failure json_loads) lines = [].
Proof.
  induction lines as [|line lines IH]; intros Hclean; [done|].
  cbn [omap list_omap]. rewrite IH.
  - unfold line_failure.
    destruct (json_loads (Text.strip line)) as [r|e] eqn:Hline; [done|].
    by rewrite (Hclean line e (list_elem_of_here _ _) Hline).
  - intros l e Hin. apply Hclean. by apply elem_of_cons; right.
Qed.

(** The first line on which decoding raises something other than
    [JSONDecodeError] decides. *)
Lemma first_line_failure (newer older : list string) (line : string) (e : exn) :
  (∀ l e', l ∈ newer → json_loads (Text.strip l) = Raise e' → e' = JSONDecodeError) →
  json_loads (Text.strip line) = Raise e →
  e ≠ JSONDecodeError →
  ∃ later, omap (line_failure json_loads) (newer ++ line :: older)%list = e :: later.
Proof.
  intros Hclean Hline Hother.
  rewrite omap_app, (no_line_failure newer Hclean). cbn [app omap list_omap].
  unfold line_failure at 1. rewrite Hline.
  destruct e; try done; eauto.
Qed.

(** X1. Whatever the limit, [audit-log] goes through the lines of its
    window, newest first. When every line decodes or raises
    [JSONDecodeError], the records returned are exactly the lines that
    decode, newest first: a line that does not decode is passed over and
    costs no other record its place. When decoding a line raises
    anything else, and no newer line did, the answer is a 500 carrying
    that exception, and no record is returned. *)
Theorem audit_log_keeps_what_decodes
    (fs : gmap string string) (limit : Z) (p content : string) :
  audit_file_path json_loads fs = Return (PStr p) →
  fs !! p = Some content →
  ((∀ line e, line ∈ recent_lines limit (Text.readlines content) →
              json_loads (Text.strip line) = Raise e → e = JSONDecodeError) →
   ∃ out,
     get_audit_log json_loads fs limit = Return (PDict [("records", PList out)]) ∧
     out = omap (line_record json_loads)
             (reverse (recent_lines limit (Text.readlines content))) ∧
     (∀ r, r ∈ out ↔
        ∃ line, line ∈ recent_lines limit (Text.readlines content) ∧
                json_loads (Text.strip line) = Return r) ∧
     (length out ≤ length (recent_lines limit (Text.readlines content)))%nat) ∧
  (∀ newer line older e,
     reverse (recent_lines limit (Text.readlines content)) =
       (newer ++ line :: older)%list →
     (∀ l e', l ∈ newer → json_loads (Text.strip l) = Raise e' → e' = JSONDecodeError) →
     json_loads (Text.strip line) = Raise e →
     e ≠ JSONDecodeError →
     get_audit_log json_loads fs limit =
       Raise (HTTPException 500 "Failed to retrieve audit log: " (Some e))).
Proof.
  intros Hpath Hfile.
  rewrite (get_audit_log_found _ _ _ _ _ Hpath Hfile). unfold audit_log_answer.
  split.
  - intros Hclean.
    exists (omap (line_record json_loads)
              (reverse (recent_lines limit (Text.readlines content)))).
    split_and!.
    + rewrite no_line_failure; [done|].
      intros line e Hin. apply Hclean. exact (proj1 (elem_of_reverse _ _) Hin).
    + done.
    + intros r. rewrite list_elem_of_omap. unfold line_record. split.
      * intros (line & Hin & Hdec). exists line.
        split; [exact (proj1 (elem_of_reverse _ _) Hin)|].
        by destruct (json_loads (Text.strip line)); simplify_eq.
      * intros (line & Hin & Hdec). exists line.
        split; [exact (proj2 (elem_of_reverse _ _) Hin)|]. by rewrite Hdec.
    + rewrite <- (length_reverse (recent_lines _ _)).
      generalize (reverse (recent_lines limit (Text.readlines content))).
      induction l as [|line l IH]; [done|]. cbn [omap list_omap].
      destruct (line_record json_loads line); simpl; lia.
  - intros newer line older e Hwindow Hclean Hline Hother.
    destruct (first_line_failure newer older line e Hclean Hline Hother)
      as [later Hfirst].
    by rewrite Hwindow, Hfirst.
Qed.

(** X2. A limit that is not positive does not bound the answer: with
    limit 0 [audit-log] goes through every line, and with limit [-m]
    through every line but the [m] oldest. *)
Theorem audit_log_nonpositive_limit
    (fs : gmap string string) (limit : Z) (p content : string) :
  audit_file_path json_loads fs = Return (PStr p) →
  fs !! p = Some content →
  limit ≤ 0 →
  get_audit_log json_loads fs limit =
    audit_log_answer json_loads
      (reverse (drop (Z.to_nat (- limit)) (Text.readlines content))).
Proof.
  intros Hpath Hfile Hle.
  rewrite (get_audit_log_found _ _ _ _ _ Hpath Hfile).
  by rewrite recent_lines_nonpositive.
Qed.

(** X3. When config.json exists but does not decode, or decodes to
    something that is not an object, [audit-log] answers 500 and the
    latest-record read answers [None], whatever the audit log holds. *)
Theorem unreadable_config_breaks_readers
    (fs : gmap string string) (text : string) (limit : Z) :
  fs !! "config.json" = Some text →
  (∀ e, json_loads (Text.universal_newlines text) = Raise e →
     get_audit_log json_loads fs limit =
       Raise (HTTPException 500 "Failed to retrieve audit log: " (Some e)) ∧
     read_latest_audit_record json_loads fs = PNone) ∧
  (∀ v, json_loads (Text.universal_newlines text) = Return v →
        (∀ items, v ≠ PDict items) →
     get_audit_log json_loads fs limit =
       Raise (HTTPException 500 "Failed to retrieve audit log: " (Some AttributeError)) ∧
     read_latest_audit_record json_loads fs = PNone).
Proof.
  intros Hconfig.
  assert (Hpath : audit_file_path json_loads fs =
    config ← json_loads (Text.universal_newlines text);
    config_get_audit_log_path config).
  { unfold audit_file_path. rewrite bool_decide_eq_true_2 by eauto.
    unfold open_read. by rewrite Hconfig. }
  unfold get_audit_log, get_audit_log_body, read_latest_audit_record,
    read_latest_audit_record_body.
  rewrite Hpath. split.
  - by intros e ->.
  - intros v -> Hnot. destruct v; try done. by destruct (Hnot items).
Qed.

(** X4. When the last line of the log decodes, the latest-record read
    returns its record, and for every positive limit that record heads
    the list [audit-log] returns: it heads every list returned, and a
    list is returned when no older line makes the decoder raise
    anything but [JSONDecodeError]. *)
Theorem latest_record_heads_audit_log
    (fs : gmap string string) (limit : Z) (p content : string)
    (before : list string) (line : string) (r : pyval) :
  audit_file_path json_loads fs = Return (PStr p) →
  fs !! p = Some content →
  Text.readlines content = (before ++ [line])%list →
  json_loads (Text.strip line) = Return r →
  0 < limit →
  read_latest_audit_record json_loads fs = r ∧
  (∀ records,
     get_audit_log json_loads fs limit = Return (PDict [("records", PList records)]) →
     ∃ older, records = r :: older) ∧
  ((∀ l e, l ∈ before → json_loads (Text.strip l) = Raise e → e = JSONDecodeError) →
   ∃ older,
     get_audit_log json_loads fs limit = Return (PDict [("records", PList (r :: older))])).
Proof.
  intros Hpath Hfile Hlines Hdec Hpos. split.
  { rewrite (read_latest_last_line _ _ _ _ _ _ Hpath Hfile Hlines). by rewrite Hdec. }
  rewrite (get_audit_log_found _ _ _ _ _ Hpath Hfile).
  rewrite recent_lines_positive by done. rewrite Hlines.
  rewrite length_app. cbn [length].
  rewrite drop_app_le by lia. rewrite reverse_snoc.
  assert (Hclean : line_failure json_loads line = None)
    by (unfold line_failure; by rewrite Hdec).
  assert (Hrecord : line_record json_loads line = Some r)
    by (unfold line_record; by rewrite Hdec).
  unfold audit_log_answer. cbn [omap list_omap]. rewrite Hclean, Hrecord.
  clear Hclean Hrecord.
  set (older_lines := reverse (drop _ before)).
  split.
  - intros records.
    destruct (omap (line_failure json_loads) older_lines); [|done].
    intros [= <-]. eauto.
  - intros Hclean. rewrite no_line_failure; [by eexists|].
    unfold older_lines. intros l e Hin. apply Hclean.
    rewrite <- (take_drop (length before + 1 - Z.to_nat limit) before).
    apply elem_of_app. right. exact (proj1 (elem_of_reverse _ _) Hin).
Qed.

(** X5. A log that is missing or has no line gives [None] as the latest
    record and an empty list from [audit-log], whatever the limit. *)
Theorem empty_log_reads_as_nothing
    (fs : gmap string string) (limit : Z) (p : string) :
  audit_file_path json_loads fs = Return (PStr p) →
  fs !! p = None ∨ (∃ content, fs !! p = Some content ∧ Text.readlines content = []) →
  read_latest_audit_record json_loads fs = PNone ∧
  get_audit_log json_loads fs limit = Return (PDict [("records", PList [])]).
Proof.
  intros Hpath [Hmissing|(content & Hfile & Hlines)].
  - unfold read_latest_audit_record, read_latest_audit_record_body,
      get_audit_log, get_audit_log_body.
    rewrite Hpath. simpl. rewrite Hmissing.
    by rewrite bool_decide_eq_false_2 by (by intros [? ?]).
  - split.
    + unfold read_latest_audit_record, read_latest_audit_record_body.
      rewrite Hpath. simpl. rewrite Hfile.
      rewrite bool_decide_eq_true_2 by eauto. simpl.
      unfold Text.readlines in Hlines. by rewrite Hlines.
    + rewrite (get_audit_log_found _ _ _ _ _ Hpath Hfile), Hlines.
      unfold recent_lines, slice_from. cbn [length].
      by destruct (Z.of_nat 0 >? limit); rewrite ?drop_nil.
Qed.

End ReaderEdges.

(** ** Configuring, then reading *)

Section ConfigureThenRead.

Variable json_loads : string → outcome pyval.
Variable json_dumps : pyval → string.

Lemma audit_file_path_after_configure (config : ConfigurationRequest) (w : world) :
  json_loads (Text.universal_newlines (json_dumps (config_data config))) =
    Return (config_data config) →
  audit_file_path json_loads (files (configure_service json_dumps config w).2) =
    Return (opt PStr (audit_log_path config)).
Proof.
  intros Hround. unfold audit_file_path.
  pose proof (configure_service_files json_dumps config w "config.json") as Hfile.
  rewrite lookup_insert_eq in Hfile. specialize (Hfile ltac:(done)).
  rewrite bool_decide_eq_true_2 by (rewrite Hfile; eauto).
  unfold open_read. rewrite Hfile. cbn [mbind outcome_bind].
  rewrite Hround. cbn [mbind outcome_bind].
  reflexivity.
Qed.

(** X6. After [configure], both readers look for the audit log at the
    path the request gave as audit_log_path: [audit-log] answers from
    the lines of that file, and with an empty list when it is not
    there. *)
Theorem configured_audit_log_is_read
    (config : ConfigurationRequest) (w : world) (p : string) (limit : Z) :
  audit_log_path config = Some p →
  json_loads (Text.universal_newlines (json_dumps (config_data config))) =
    Return (config_data config) →
  let fs := files (configure_service json_dumps config w).2 in
  audit_file_path json_loads fs = Return (PStr p) ∧
  (fs !! p = None →
     get_audit_log json_loads fs limit = Return (PDict [("records", PList [])])) ∧
  (∀ content, fs !! p = Some content →
     get_audit_log json_loads fs limit =
       audit_log_answer json_loads
         (reverse (recent_lines limit (Text.readlines content)))).
Proof.
  intros Hp Hround fs.
  assert (Hpath : audit_file_path json_loads fs = Return (PStr p)).
  { unfold fs. rewrite audit_file_path_after_configure by done. by rewrite Hp. }
  split_and!; [done| |].
  - intros Hmissing. unfold get_audit_log, get_audit_log_body.
    rewrite Hpath. simpl. rewrite Hmissing.
    by rewrite bool_decide_eq_false_2 by (by intros [? ?]).
  - intros content Hfile.
    by rewrite (get_audit_log_found _ _ _ _ _ Hpath Hfile).
Qed.

(** X7. A configure request may give audit_log_path as null; it is
    accepted and written, and from then on [audit-log] answers 500 and
    the latest-record read answers [None]. *)
Theorem null_audit_path_breaks_readers
    (config : ConfigurationRequest) (w : world) (limit : Z) :
  audit_log_path config = None →
  json_loads (Text.universal_newlines (json_dumps (config_data config))) =
    Return (config_data config) →
  let fs := files (configure_service json_dumps config w).2 in
  get_audit_log json_loads fs limit =
    Raise (HTTPException 500 "Failed to retrieve audit log: " (Some TypeError)) ∧
  read_latest_audit_record json_loads fs = PNone.
Proof.
  intros Hp Hround fs.
  assert (Hpath : audit_file_path json_loads fs = Return PNone).
  { unfold fs. rewrite audit_file_path_after_configure by done. by rewrite Hp. }
  unfold get_audit_log, get_audit_log_body, read_latest_audit_record,
    read_latest_audit_record_body.
  by rewrite Hpath.
Qed.

End ConfigureThenRead.

(** ** Finding the engine *)

Lemma prefix_iff (p s : string) :
  String.prefix p s = true ↔ ∃ rest, s = p +:+ rest.
Proof.
  revert s. induction p as [|a p IH]; intros s.
  - split; [intros _; by exists s|]. intros _. by destruct s.
  - destruct s as [|b s]; cbn [String.prefix].
    + split; [done|]. by intros [rest [=]].
    + destruct (ascii_dec a b) as [->|Hne].
      * rewrite IH. split; intros [rest Hrest]; exists rest.
        -- by rewrite append_cons, <- Hrest.
        -- rewrite append_cons in Hrest. by injection Hrest.
      * split; [done|]. intros [rest Hrest].
        rewrite append_cons in Hrest. by injection Hrest.
Qed.

(** [sub in s] holds exactly when [s] is some text, then [sub], then some
    text. *)
Lemma contains_iff (sub s : string) :
  Text.contains sub s = true ↔ ∃ before after, s = before +:+ sub +:+ after.
Proof.
  induction s as [|c s IH].
  - cbn [Text.contains]. rewrite orb_false_r, prefix_iff. split.
    + intros [rest Hrest]. by exists EmptyString, rest.
    + intros (before & after & Heq). destruct before as [|x before]; [|done].
      by exists after.
  - cbn [Text.contains]. rewrite orb_true_iff, prefix_iff, IH. split.
    + intros [[rest Hrest]|(before & after & Heq)].
      * by exists EmptyString, rest.
      * exists (String c before), after. by rewrite append_cons, <- Heq.
    + intros (before & after & Heq). destruct before as [|x before].
      * left. by exists after.
      * right. rewrite append_cons in Heq. injection Heq as -> Heq.
        by exists before, after.
Qed.

Lemma process_iter_find_is_Some (table : list (Z * process)) :
  is_Some (process_iter_find table) ↔
  ∃ pid p argv arg,
    (pid, p) ∈ table ∧ cmdline p = Some argv ∧ arg ∈ argv ∧
    Text.contains "project.py" arg = true.
Proof.
  induction table as [|[q proc] table IH]; cbn [process_iter_find].
  - split; [by intros [? ?]|]. by intros (? & ? & ? & ? & ?%elem_of_nil & _).
  - assert (Hrest :
      (∃ pid p argv arg, (pid, p) ∈ table ∧ cmdline p = Some argv ∧ arg ∈ argv ∧
         Text.contains "project.py" arg = true) →
      ∃ pid p argv arg, (pid, p) ∈ (q, proc) :: table ∧ cmdline p = Some argv ∧
         arg ∈ argv ∧ Text.contains "project.py" arg = true).
    { intros (pid & p & argv & arg & Hin & Hrest). exists pid, p, argv, arg.
      split; [by apply elem_of_cons; right|done]. }
    destruct (cmdline proc) as [[|arg0 args]|] eqn:Hcmd.
    + rewrite IH. split; [done|].
      intros (pid & p & argv & arg & [[= -> ->]|Hin]%elem_of_cons & Hargv & Harg & Hc).
      * rewrite Hcmd in Hargv. injection Hargv as <-. by apply elem_of_nil in Harg.
      * by exists pid, p, argv, arg.
    + destruct (existsb (Text.contains "project.py") (arg0 :: args)) eqn:Hex.
      * split; [|by eauto]. intros _.
        apply existsb_exists in Hex as (arg & Hin%list_elem_of_In & Hc).
        exists q, proc, (arg0 :: args), arg. split; [by apply elem_of_cons; left|done].
      * rewrite IH. split; [done|].
        intros (pid & p & argv & arg & [[= -> ->]|Hin]%elem_of_cons & Hargv & Harg & Hc).
        -- rewrite Hcmd in Hargv. injection Hargv as <-.
           assert (existsb (Text.contains "project.py") (arg0 :: args) = true) as Hyes
             by (apply existsb_exists; exists arg; by rewrite <- list_elem_of_In).
           by rewrite Hyes in Hex.
        -- by exists pid, p, argv, arg.
    + rewrite IH. split; [done|].
      intros (pid & p & argv & arg & [[= -> ->]|Hin]%elem_of_cons & Hargv & Harg & Hc).
      * by rewrite Hcmd in Hargv.
      * by exists pid, p, argv, arg.
Qed.

(** X8. Without a pid file, an engine is reported exactly when some
    process has an argument that contains the text project.py; whose
    process it is, or what else the argument says, plays no part. *)
Theorem engine_found_by_command_line (w : world) :
  files w !! project_pid_file = None →
  ((is_project_running w).1 = true ↔
   ∃ pid p argv arg before after,
     (pid, p) ∈ procs w ∧ cmdline p = Some argv ∧ arg ∈ argv ∧
     arg = before +:+ "project.py" +:+ after).
Proof.
  intros Hnofile. rewrite is_project_running_no_pid_file by done.
  transitivity (is_Some (process_iter_find (procs w))).
  - destruct (process_iter_find (procs w)); cbn [fst]; split; try done; eauto;
      by intros [? ?].
  - rewrite process_iter_find_is_Some. split.
    + intros (pid & p & argv & arg & Hin & Hargv & Harg & Hc).
      apply contains_iff in Hc as (before & after & Heq).
      by exists pid, p, argv, arg, before, after.
    + intros (pid & p & argv & arg & before & after & Hin & Hargv & Harg & Heq).
      exists pid, p, argv, arg. split_and!; [done..|].
      apply contains_iff. by exists before, after.
Qed.

(** X9. A pid file that does not hold an integer, or that names a
    process whose command line may not be read, or that holds a number
    too large for a pid, hides the engine: the scan of the process table
    is not tried, [is_project_running] answers (False, None), and [stop]
    reports success without a single call. *)
Theorem unusable_pid_file_hides_engine (w : world) (text : string) :
  files w !! project_pid_file = Some text →
  Text.py_int (Text.strip (Text.universal_newlines text)) = None ∨
  (∃ pid p,
     Text.py_int (Text.strip (Text.universal_newlines text)) = Some pid ∧
     0 ≤ pid ∧ find_process pid (procs w) = Some p ∧ cmdline p = None) ∨
  (∃ pid,
     Text.py_int (Text.strip (Text.universal_newlines text)) = Some pid ∧
     pid_limit ≤ pid) →
  is_project_running w = (false, None) ∧
  stop_service w = (Return stopped_message, w).
Proof.
  intros Hfile Hbad.
  assert (Hrun : is_project_running w = (false, None)).
  { unfold is_project_running, is_project_running_body.
    rewrite bool_decide_eq_true_2 by eauto.
    unfold open_read. rewrite Hfile. cbn [mbind outcome_bind].
    destruct Hbad as [->|[(pid & p & -> & Hpid & Hfind & Hcmd)|(pid & -> & Hbig)]];
      [done| |]; cbn [from_option mbind outcome_bind]; unfold pid_exists.
    - rewrite (proj2 (Z.ltb_ge pid 0)) by done.
      destruct (pid_limit <=? pid); [done|]. cbn [mbind outcome_bind].
      rewrite bool_decide_eq_true_2 by eauto.
      unfold psutil_Process. rewrite Hfind. cbn [mbind outcome_bind].
      unfold process_cmdline. by rewrite Hcmd.
    - rewrite (proj2 (Z.ltb_ge pid 0)) by (unfold pid_limit in Hbig; lia).
      by rewrite (proj2 (Z.leb_le pid_limit pid)) by done. }
  split; [done|]. apply stop_service_idle. intros pid. by rewrite Hrun.
Qed.

(** ** What the endpoints never do *)

(** X10. [stop] only takes away: it launches nothing, at most one pid
    leaves the process table, and no file changes except that the pid
    file may be removed. *)
Theorem stop_only_takes_away (w : world) :
  popen_script (stop_service w).2 = popen_script w ∧
  (procs (stop_service w).2 = procs w ∨
   ∃ pid, procs (stop_service w).2 = remove_process pid (procs w)) ∧
  (∀ path,
     files (stop_service w).2 !! path = files w !! path ∨
     (path = project_pid_file ∧ files (stop_service w).2 !! path = None)).
Proof.
  assert (Hworld : (stop_service w).2 = (stop_project_service w).2).
  { rewrite stop_service_relays. by destruct (stop_project_service w) as [[[]|e] w']. }
  rewrite Hworld.
  assert (Hidle : (∀ pid, is_project_running w = (true, Some pid) → pid = 0) →
    (stop_project_service w).2 = w)
    by (intros Hidle; by rewrite stop_project_service_idle).
  destruct (is_project_running w) as [running [pid|]] eqn:Hrun.
  2: { rewrite Hidle by congruence. split_and!; [done|by left|by left]. }
  destruct running.
  2: { rewrite Hidle by congruence. split_and!; [done|by left|by left]. }
  destruct (decide (pid = 0)) as [->|Hpid].
  { rewrite Hidle by congruence. split_and!; [done|by left|by left]. }
  clear Hidle.
  destruct (is_project_running_in_table w pid Hrun) as [p Hfind].
  rewrite (stop_project_service_running w pid p Hrun Hpid Hfind).
  assert (Hrem : ∀ w',
    popen_script (pid_file_removed w') = popen_script w' ∧
    procs (pid_file_removed w') = procs w' ∧
    ∀ path, files (pid_file_removed w') !! path = files w' !! path ∨
            (path = project_pid_file ∧ files (pid_file_removed w') !! path = None)).
  { intros w'. unfold pid_file_removed.
    destruct (files w' !! project_pid_file) eqn:Hpf; [|by split_and!; [..|left]].
    split_and!; [done..|]. intros path. cbn [files set_files add_event].
    destruct (decide (path = project_pid_file)) as [->|Hne].
    - right. split; [done|]. apply lookup_delete_eq.
    - left. by apply lookup_delete_ne. }
  destruct (on_terminate (replies p)), (on_wait (replies p)), (on_kill (replies p));
    cbv zeta; cbn [snd];
    try (split_and!; [done|by left|by left]);
    match goal with
    | |- context [pid_file_removed ?w'] =>
        destruct (Hrem w') as (Hscript & Hprocs & Hfiles)
    end;
    rewrite Hscript, Hprocs; (split_and!; [done|right; by exists pid|exact Hfiles]).
Qed.

Section OtherFiles.

Variable json_dumps : pyval → string.
Variable convert : conversions.

(** X11. The supervisor writes three files and no other: whatever
    [stop], [restart] or [configure] do, a file that is not the pid
    file, the credential file or the configuration file - the audit log,
    the engine's own log - is left as it was. *)
Theorem other_files_untouched (w : world) (body : request_body) (path : string) :
  path ≠ project_pid_file →
  path ≠ ".env" →
  path ≠ "config.json" →
  files (stop_service w).2 !! path = files w !! path ∧
  files (restart_service w).2 !! path = files w !! path ∧
  files (post_configure json_dumps convert body w).2 !! path = files w !! path.
Proof.
  intros Hpid Henv Hconfig. split_and!.
  - rewrite stop_service_relays.
    pose proof (keeps_file_stop_project_service path Hpid w) as Hkept.
    by destruct (stop_project_service w) as [[[]|e] w'].
  - revert w. change (keeps_file path restart_service). unfold restart_service.
    apply keeps_file_catch; [|auto with keeps].
    apply keeps_file_bind; [by apply keeps_file_stop_project_service|]. intros _.
    apply keeps_file_bind; [auto with keeps|]. intros _.
    apply keeps_file_bind; [by apply keeps_file_start_project_service|]. intros _.
    apply keeps_file_bind; [auto with keeps|]. intros _.
    apply keeps_file_bind; [auto with keeps|]. intros status.
    destruct status.1; auto with keeps.
  - unfold post_configure. destruct (parse_request convert body) as [config|e]; [|done].
    rewrite configure_service_files by done.
    by rewrite !lookup_insert_ne by done.
Qed.

End OtherFiles.



(** ** The engine's own log *)

Lemma append_nil_r (s : string) : s +:+ "" = s.
Proof. induction s as [|c s IH]; [done|]. by rewrite append_cons, IH. Qed.

Lemma concat_cons (x : string) (xs : list string) :
  String.concat "" (x :: xs) = x +:+ String.concat "" xs.
Proof. destruct xs; cbn [String.concat]; [by rewrite append_nil_r|done]. Qed.

Lemma concat_app (xs ys : list string) :
  String.concat "" (xs ++ ys) = String.concat "" xs +:+ String.concat "" ys.
Proof.
  induction xs as [|x xs IH]; [done|].
  rewrite <- app_comm_cons, !concat_cons, IH. by rewrite append_assoc.
Qed.

(** The lines of a text, put end to end, give the text back. *)
Lemma concat_split_lines (cur s : string) :
  String.concat "" (Text.split_lines cur s) = cur +:+ s.
Proof.
  revert cur. induction s as [|c s IH]; intros cur; cbn [Text.split_lines].
  - destruct (String.eqb_spec cur "") as [->|Hne]; [done|].
    cbn [String.concat]. by rewrite append_nil_r.
  - destruct (Ascii.eqb_spec c Text.LF) as [->|Hne].
    + rewrite concat_cons, IH, append_nil_l. by rewrite append_assoc.
    + rewrite IH. by rewrite append_assoc.
Qed.

(** X13. [GET /logs] returns the last 50 lines of the engine's log, in
    the order of the file, or all of them when there are fewer; put end
    to end they are the tail of the text as it is read. Without a log
    file the answer is the one line saying so. *)
Theorem service_logs_are_the_tail (fs : gmap string string) :
  (fs !! "portfolio_service.log" = None →
     get_service_logs fs = Return (PDict [("logs", PList [PStr "No log file found"])])) ∧
  (∀ content, fs !! "portfolio_service.log" = Some content →
     let lines := Text.readlines content in
     ∃ logs,
       get_service_logs fs = Return (PDict [("logs", PList (PStr <$> logs))]) ∧
       logs = drop (length lines - 50) lines ∧
       length logs = Nat.min (length lines) 50 ∧
       ∃ before, Text.universal_newlines content = before +:+ String.concat "" logs).
Proof.
  unfold get_service_logs. cbv zeta. cbn [os_path_exists open_read]. split.
  - intros Hmissing. rewrite Hmissing.
    by rewrite bool_decide_eq_false_2 by (by intros [? ?]).
  - intros content Hfile. rewrite Hfile.
    rewrite bool_decide_eq_true_2 by eauto. cbn [mbind outcome_bind try_except].
    fold (Text.readlines content).
    exists (drop (length (Text.readlines content) - 50) (Text.readlines content)).
    split_and!.
    + do 5 f_equal. unfold slice_from. cbn [Z.ltb Z.compare Z.opp].
      do 2 f_equal. lia.
    + done.
    + rewrite length_drop. lia.
    + exists (String.concat ""
                (take (length (Text.readlines content) - 50) (Text.readlines content))).
      rewrite <- concat_app, take_drop. unfold Text.readlines.
      by rewrite concat_split_lines.
Qed.

(** ** The analysis endpoint *)

(** Proves [x ∈ l] for an explicit list [l] that holds [x]. *)
Ltac listed :=
  repeat first [by (apply elem_of_cons; left) | apply elem_of_cons; right].

Section AnalysisProperties.

Variable json_loads : string → outcome pyval.
Variable AnalysisResponse :
  pyval → pyval → pyval → pyval → pyval → pyval → outcome pyval.

(** X14. [GET /analysis] answers 404, no analysis data yet, when the
    audit log is missing, has no line, or ends in a line that does not
    decode - in the last case whatever complete records come before. *)
Theorem analysis_not_found (fs : gmap string string) (p : string) :
  audit_file_path json_loads fs = Return (PStr p) →
  fs !! p = None ∨
  (∃ content, fs !! p = Some content ∧ Text.readlines content = []) ∨
  (∃ content before line e,
     fs !! p = Some content ∧
     Text.readlines content = (before ++ [line])%list ∧
     json_loads (Text.strip line) = Raise e) →
  get_latest_analysis json_loads AnalysisResponse fs =
    Raise (HTTPException 404 "No analysis data available yet" None).
Proof.
  intros Hpath Hcause.
  assert (Hnone : read_latest_audit_record json_loads fs = PNone).
  { destruct Hcause as [Hmissing|[(content & Hfile & Hlines)|
                                  (content & before & line & e & Hfile & Hlines & Hbad)]].
    - unfold read_latest_audit_record, read_latest_audit_record_body.
      rewrite Hpath. simpl. rewrite Hmissing.
      by rewrite bool_decide_eq_false_2 by (by intros [? ?]).
    - unfold read_latest_audit_record, read_latest_audit_record_body.
      rewrite Hpath. simpl. rewrite Hfile.
      rewrite bool_decide_eq_true_2 by eauto. simpl.
      unfold Text.readlines in Hlines. by rewrite Hlines.
    - by eapply read_latest_last_line_only. }
  unfold get_latest_analysis, get_latest_analysis_body. by rewrite Hnone.
Qed.

(** X15. When the latest record is an object that lacks one of
    timestamp, weights, expected_return, expected_volatility and
    sharpe_ratio, [GET /analysis] answers 500 with the [KeyError] of a
    missing key; positions is the one field that may be absent. *)
Theorem analysis_missing_key
    (fs : gmap string string) (items : list (string * pyval)) (key : string) :
  read_latest_audit_record json_loads fs = PDict items →
  items ≠ [] →
  key ∈ ["timestamp"; "weights"; "expected_return"; "expected_volatility"; "sharpe_ratio"] →
  dict_lookup key items = None →
  ∃ missing,
    missing ∈ ["timestamp"; "weights"; "expected_return"; "expected_volatility";
               "sharpe_ratio"] ∧
    dict_lookup missing items = None ∧
    get_latest_analysis json_loads AnalysisResponse fs =
      Raise (HTTPException 500 "Failed to retrieve analysis: " (Some (KeyError missing))).
Proof.
  intros Hlatest Hnonempty Hkey Hmissing.
  unfold get_latest_analysis, get_latest_analysis_body. rewrite Hlatest.
  assert (Htruthy : truthy (PDict items) = true) by (by destruct items).
  rewrite Htruthy. cbn [negb subscript get_or].
  destruct (dict_lookup "timestamp" items) eqn:H1; cbn [mbind outcome_bind];
    [|exists "timestamp"; split_and!; [listed|done|done]].
  destruct (dict_lookup "weights" items) eqn:H2; cbn [mbind outcome_bind];
    [|exists "weights"; split_and!; [listed|done|done]].
  destruct (dict_lookup "expected_return" items) eqn:H3; cbn [mbind outcome_bind];
    [|exists "expected_return"; split_and!; [listed|done|done]].
  destruct (dict_lookup "expected_volatility" items) eqn:H4; cbn [mbind outcome_bind];
    [|exists "expected_volatility"; split_and!; [listed|done|done]].
  destruct (dict_lookup "sharpe_ratio" items) eqn:H5; cbn [mbind outcome_bind];
    [|exists "sharpe_ratio"; split_and!; [listed|done|done]].
  exfalso.
  repeat (apply elem_of_cons in Hkey as [->|Hkey]; [congruence|]).
  by apply elem_of_nil in Hkey.
Qed.

(** X16. When the last line decodes to a value that is not an object
    and is not empty - a list, a number, a string, true - [GET /analysis]
    answers 500. *)
Theorem analysis_not_an_object (fs : gmap string string) (v : pyval) :
  read_latest_audit_record json_loads fs = v →
  truthy v = true →
  (∀ items, v ≠ PDict items) →
  get_latest_analysis json_loads AnalysisResponse fs =
    Raise (HTTPException 500 "Failed to retrieve analysis: " (Some TypeError)).
Proof.
  intros Hlatest Htruthy Hnot.
  unfold get_latest_analysis, get_latest_analysis_body. rewrite Hlatest, Htruthy.
  cbn [negb]. destruct v; try done. by destruct (Hnot items).
Qed.

End AnalysisProperties.

(** ** The properties above at sample inputs *)

Lemma audit_log_keeps_what_decodes_witness :
  (∃ out,
     get_audit_log JsonLite.loads {[ "audit.log" := Samples.torn_log ]} 10 =
       Return (PDict [("records", PList out)]) ∧
     out = omap (line_record JsonLite.loads)
             (reverse (recent_lines 10 (Text.readlines Samples.torn_log))) ∧
     (∀ r, r ∈ out ↔
        ∃ line, line ∈ recent_lines 10 (Text.readlines Samples.torn_log) ∧
                JsonLite.loads (Text.strip line) = Return r) ∧
     (length out ≤ length (recent_lines 10 (Text.readlines Samples.torn_log)))%nat) ∧
  get_audit_log Samples.shallow_loads {[ "audit.log" := Samples.deep_log ]} 10 =
    Raise (HTTPException 500 "Failed to retrieve audit log: " (Some RecursionError)).
Proof.
  split.
  - refine (proj1 (audit_log_keeps_what_decodes JsonLite.loads
                     {[ "audit.log" := Samples.torn_log ]} 10 "audit.log"
                     Samples.torn_log _ _) _).
    + vm_compute. reflexivity.
    + vm_compute. reflexivity.
    + intros line e Hin.
      replace (recent_lines 10 (Text.readlines Samples.torn_log))
        with [Samples.record_line "2024-01-01T00:00:00Z"; Samples.torn_line] in Hin
        by (vm_compute; reflexivity).
      members Hin; intros Hraised; vm_compute in Hraised; congruence.
  - refine (proj2 (audit_log_keeps_what_decodes Samples.shallow_loads
                     {[ "audit.log" := Samples.deep_log ]} 10 "audit.log"
                     Samples.deep_log _ _)
              [Samples.record_line "2024-01-01T00:10:00Z"] Samples.deep_line
              [Samples.record_line "2024-01-01T00:00:00Z"] RecursionError _ _ _ _).
    + vm_compute. reflexivity.
    + vm_compute. reflexivity.
    + vm_compute. reflexivity.
    + intros l e Hin. members Hin. intros Hraised. vm_compute in Hraised. congruence.
    + vm_compute. reflexivity.
    + discriminate.
Defined.

Lemma audit_log_nonpositive_limit_witness :
  get_audit_log JsonLite.loads {[ "audit.log" := Samples.full_log ]} 0 =
    audit_log_answer JsonLite.loads
      (reverse (drop (Z.to_nat (- 0)) (Text.readlines Samples.full_log))).
Proof.
  refine (audit_log_nonpositive_limit JsonLite.loads
            {[ "audit.log" := Samples.full_log ]} 0 "audit.log" Samples.full_log _ _ _).
  - vm_compute. reflexivity.
  - vm_compute. reflexivity.
  - lia.
Defined.

Lemma unreadable_config_breaks_readers_witness :
  get_audit_log JsonLite.loads Samples.broken_config_fs 10 =
    Raise (HTTPException 500 "Failed to retrieve audit log: " (Some JSONDecodeError)) ∧
  read_latest_audit_record JsonLite.loads Samples.broken_config_fs = PNone.
Proof.
  refine (proj1 (unreadable_config_breaks_readers JsonLite.loads
                   Samples.broken_config_fs "{" 10 _) JSONDecodeError _).
  - vm_compute. reflexivity.
  - vm_compute. reflexivity.
Defined.

Lemma latest_record_heads_audit_log_witness :
  read_latest_audit_record JsonLite.loads {[ "audit.log" := Samples.full_log ]} =
    Samples.record "2024-01-01T00:10:00Z" ∧
  (∀ records,
     get_audit_log JsonLite.loads {[ "audit.log" := Samples.full_log ]} 2 =
       Return (PDict [("records", PList records)]) →
     ∃ older, records = Samples.record "2024-01-01T00:10:00Z" :: older) ∧
  ∃ older,
    get_audit_log JsonLite.loads {[ "audit.log" := Samples.full_log ]} 2 =
      Return (PDict [("records", PList (Samples.record "2024-01-01T00:10:00Z" :: older))]).
Proof.
  destruct (latest_record_heads_audit_log JsonLite.loads
              {[ "audit.log" := Samples.full_log ]} 2 "audit.log" Samples.full_log
              [Samples.record_line "2024-01-01T00:00:00Z";
               Samples.record_line "2024-01-01T00:05:00Z"]
              (Samples.record_line "2024-01-01T00:10:00Z")
              (Samples.record "2024-01-01T00:10:00Z"))
    as (Hlatest & Hheads & Hanswer).
  - vm_compute. reflexivity.
  - vm_compute. reflexivity.
  - vm_compute. reflexivity.
  - vm_compute. reflexivity.
  - lia.
  - split_and!; [exact Hlatest|exact Hheads|].
    apply Hanswer. intros l e Hin.
    members Hin; intros Hraised; vm_compute in Hraised; congruence.
Defined.

Lemma empty_log_reads_as_nothing_witness :
  read_latest_audit_record JsonLite.loads {[ "audit.log" := "" ]} = PNone ∧
  get_audit_log JsonLite.loads {[ "audit.log" := "" ]} 5 =
    Return (PDict [("records", PList [])]).
Proof.
  refine (empty_log_reads_as_nothing JsonLite.loads {[ "audit.log" := "" ]} 5
            "audit.log" _ _).
  - vm_compute. reflexivity.
  - right. exists "". split; vm_compute; reflexivity.
Defined.

Lemma configured_audit_log_is_read_witness :
  audit_file_path JsonLite.loads
    (files (configure_service JsonLite.dumps Samples.trail_config Samples.fresh_world).2) =
    Return (PStr "trail.log").
Proof.
  refine (proj1 (configured_audit_log_is_read JsonLite.loads JsonLite.dumps
                   Samples.trail_config Samples.fresh_world "trail.log" 10 _ _)).
  - reflexivity.
  - vm_compute. reflexivity.
Defined.

Lemma null_audit_path_breaks_readers_witness :
  get_audit_log JsonLite.loads
    (files (configure_service JsonLite.dumps Samples.null_path_config
              Samples.fresh_world).2) 10 =
    Raise (HTTPException 500 "Failed to retrieve audit log: " (Some TypeError)) ∧
  read_latest_audit_record JsonLite.loads
    (files (configure_service JsonLite.dumps Samples.null_path_config
              Samples.fresh_world).2) = PNone.
Proof.
  refine (null_audit_path_breaks_readers JsonLite.loads JsonLite.dumps
            Samples.null_path_config Samples.fresh_world 10 _ _).
  - reflexivity.
  - vm_compute. reflexivity.
Defined.

Lemma engine_found_by_command_line_witness :
  (is_project_running Samples.editor_world).1 = true ↔
  ∃ pid p argv arg before after,
    (pid, p) ∈ procs Samples.editor_world ∧ cmdline p = Some argv ∧ arg ∈ argv ∧
    arg = before +:+ "project.py" +:+ after.
Proof.
  refine (engine_found_by_command_line Samples.editor_world _).
  vm_compute. reflexivity.
Defined.

Lemma unusable_pid_file_hides_engine_witness :
  is_project_running Samples.hidden_engine = (false, None) ∧
  stop_service Samples.hidden_engine = (Return stopped_message, Samples.hidden_engine).
Proof.
  refine (unusable_pid_file_hides_engine Samples.hidden_engine "not-a-pid" _ _).
  - vm_compute. reflexivity.
  - left. vm_compute. reflexivity.
Defined.

Lemma other_files_untouched_witness :
  files (stop_service Samples.stubborn_engine).2 !! "audit.log" =
    files Samples.stubborn_engine !! "audit.log" ∧
  files (restart_service Samples.stubborn_engine).2 !! "audit.log" =
    files Samples.stubborn_engine !! "audit.log" ∧
  files (post_configure JsonLite.dumps Samples.strict Samples.minimal_body
           Samples.stubborn_engine).2
    !! "audit.log" = files Samples.stubborn_engine !! "audit.log".
Proof.
  refine (other_files_untouched JsonLite.dumps Samples.strict Samples.stubborn_engine
            Samples.minimal_body "audit.log" _ _ _); discriminate.
Defined.

Lemma service_logs_are_the_tail_witness :
  ∃ logs,
    get_service_logs {[ "portfolio_service.log" := Samples.service_log ]} =
      Return (PDict [("logs", PList (PStr <$> logs))]) ∧
    logs = drop (length (Text.readlines Samples.service_log) - 50)
             (Text.readlines Samples.service_log) ∧
    length logs = Nat.min (length (Text.readlines Samples.service_log)) 50 ∧
    ∃ before,
      Text.universal_newlines Samples.service_log = before +:+ String.concat "" logs.
Proof.
  refine (proj2 (service_logs_are_the_tail
                   {[ "portfolio_service.log" := Samples.service_log ]})
            Samples.service_log _).
  vm_compute. reflexivity.
Defined.

Lemma started_engine_is_found_witness :
  (start_project_service Samples.fresh_world).1 = Return 4242 ∧
  files (start_project_service Samples.fresh_world).2 !! project_pid_file =
    Some (Text.str_int 4242) ∧
  is_project_running (start_project_service Samples.fresh_world).2 = (true, Some 4242).
Proof.
  refine (started_engine_is_found Samples.fresh_world 4242
            (Behaviour Delivered Exited Delivered) [] _ _ _).
  - reflexivity.
  - lia.
  - reflexivity.
Defined.

Lemma configure_reports_started_engine_witness :
  (configure_service JsonLite.dumps Samples.trail_config Samples.fresh_world).1 =
    Return (PDict [
      ("message",
       PStr ("Portfolio service configured and started successfully (PID: "
             +:+ Text.str_int 4242 +:+ ")"));
      ("service_status", PStr "running")]) ∧
  is_project_running
    (configure_service JsonLite.dumps Samples.trail_config Samples.fresh_world).2 =
    (true, Some 4242).
Proof.
  refine (configure_reports_started_engine JsonLite.dumps Samples.trail_config
            Samples.fresh_world 4242 (Behaviour Delivered Exited Delivered) [] _ _ _).
  - reflexivity.
  - lia.
  - reflexivity.
Defined.

Lemma configure_failure_keeps_new_files_witness :
  (configure_service JsonLite.dumps Samples.trail_config Samples.no_launch_world).1 =
    Raise (HTTPException 400 "Configuration failed: "
             (Some (Exception "Failed to start project.py: " (Some OSError)))) ∧
  files (configure_service JsonLite.dumps Samples.trail_config Samples.no_launch_world).2
    !! "config.json" = Some (JsonLite.dumps (config_data Samples.trail_config)) ∧
  files (configure_service JsonLite.dumps Samples.trail_config Samples.no_launch_world).2
    !! ".env" =
    Some ("API_URL=" +:+ api_base_url Samples.trail_config +:+ String Text.LF "" +:+
          "API_TOKEN=" +:+ api_key Samples.trail_config +:+ String Text.LF "") ∧
  procs (configure_service JsonLite.dumps Samples.trail_config Samples.no_launch_world).2 =
    procs (stop_project_service Samples.no_launch_world).2.
Proof.
  refine (configure_failure_keeps_new_files JsonLite.dumps Samples.trail_config
            Samples.no_launch_world _).
  left. reflexivity.
Defined.

Lemma restart_outcomes_witness :
  ((restart_service Samples.fresh_world).1 =
     Return (PDict [
       ("message",
        PStr ("Portfolio service restarted successfully (PID: "
              +:+ Text.str_int 4242 +:+ ")"))]) ∧
   is_project_running (restart_service Samples.fresh_world).2 = (true, Some 4242)) ∧
  ((restart_service Samples.no_launch_world).1 =
     Raise (HTTPException 500 "Failed to restart service: "
              (Some (Exception "Failed to start project.py: " (Some OSError)))) ∧
   files (restart_service Samples.no_launch_world).2 =
     files (stop_project_service Samples.no_launch_world).2 ∧
   procs (restart_service Samples.no_launch_world).2 =
     procs (stop_project_service Samples.no_launch_world).2).
Proof.
  split.
  - refine (proj1 (restart_outcomes Samples.fresh_world) 4242
              (Behaviour Delivered Exited Delivered) [] _ _ _);
      [reflexivity|lia|reflexivity].
  - refine (proj2 (restart_outcomes Samples.no_launch_world) _). left. reflexivity.
Defined.

Lemma exited_engine_is_not_reported_witness :
  (configure_service JsonLite.dumps Samples.trail_config Samples.short_lived_launch).1 =
    Raise (HTTPException 400 "Configuration failed: "
             (Some (Exception "Service failed to start" None))) ∧
  is_project_running
    (configure_service JsonLite.dumps Samples.trail_config Samples.short_lived_launch).2 =
    (false, None) ∧
  (restart_service Samples.short_lived_launch).1 =
    Raise (HTTPException 500 "Failed to restart service: "
             (Some (HTTPException 500 "Service failed to restart" None))) ∧
  is_project_running (restart_service Samples.short_lived_launch).2 = (false, None).
Proof.
  refine (exited_engine_is_not_reported JsonLite.dumps Samples.trail_config
            Samples.short_lived_launch 4242 [] _ _).
  - reflexivity.
  - lia.
Defined.

Lemma analysis_not_found_witness :
  get_latest_analysis JsonLite.loads Samples.accept_all
    {[ "audit.log" := Samples.torn_log ]} =
    Raise (HTTPException 404 "No analysis data available yet" None).
Proof.
  refine (analysis_not_found JsonLite.loads Samples.accept_all
            {[ "audit.log" := Samples.torn_log ]} "audit.log" _ _).
  - vm_compute. reflexivity.
  - right. right.
    exists Samples.torn_log, [Samples.record_line "2024-01-01T00:00:00Z"],
      Samples.torn_line, JSONDecodeError.
    split_and!; vm_compute; reflexivity.
Defined.

Lemma analysis_missing_key_witness :
  ∃ missing,
    missing ∈ ["timestamp"; "weights"; "expected_return"; "expected_volatility";
               "sharpe_ratio"] ∧
    dict_lookup missing [("timestamp", PStr "2024-01-01T00:10:00Z")] = None ∧
    get_latest_analysis JsonLite.loads Samples.accept_all
      {[ "audit.log" := Samples.full_log ]} =
      Raise (HTTPException 500 "Failed to retrieve analysis: " (Some (KeyError missing))).
Proof.
  refine (analysis_missing_key JsonLite.loads Samples.accept_all
            {[ "audit.log" := Samples.full_log ]}
            [("timestamp", PStr "2024-01-01T00:10:00Z")] "weights" _ _ _ _).
  - vm_compute. reflexivity.
  - discriminate.
  - listed.
  - reflexivity.
Defined.

Lemma analysis_not_an_object_witness :
  get_latest_analysis JsonLite.loads Samples.accept_all Samples.list_log_fs =
    Raise (HTTPException 500 "Failed to retrieve analysis: " (Some TypeError)).
Proof.
  refine (analysis_not_an_object JsonLite.loads Samples.accept_all Samples.list_log_fs
            (PList [PInt 1]) _ _ _).
  - vm_compute. reflexivity.
  - reflexivity.
  - discriminate.
Defined.

(** ** The status endpoint *)

Section StatusProperties.

Variable json_loads : string → outcome pyval.
Variable time_time : float.
Variable create_time : Z → outcome float.
Variable ServiceStatus : bool → option Z → pyval → option float → outcome pyval.

(** X21. [GET /status] has no handler of its own: when the last line of
    the audit log decodes to a value that is not an object and is not
    empty, the [AttributeError] of its [get] leaves the endpoint as it
    is, whether or not an engine runs and whatever its uptime; when the
    reading of the uptime fails, that failure alone is swallowed. *)
Theorem status_raises_on_non_object (w : world) (v : pyval) :
  read_latest_audit_record json_loads (files w) = v →
  truthy v = true →
  (∀ items, v ≠ PDict items) →
  get_service_status json_loads time_time create_time ServiceStatus w =
    Raise AttributeError ∧
  ∀ pid e,
    create_time pid = Raise e →
    uptime_seconds time_time create_time w (is_project_running w).1 (Some pid) = None.
Proof.
  intros Hlatest Htruthy Hnot. split.
  - unfold get_service_status. cbv zeta. rewrite Hlatest, Htruthy.
    destruct v; try done. by destruct (Hnot items).
  - intros pid e Hfail. unfold uptime_seconds.
    destruct ((is_project_running w).1 && negb (pid =? 0)); [|done].
    destruct (psutil_Process (procs w) pid); cbn [mbind outcome_bind]; [|done].
    by rewrite Hfail.
Qed.

End StatusProperties.

Lemma status_raises_on_non_object_witness :
  get_service_status JsonLite.loads 100%float (λ _, Return 40%float)
    Samples.status_of Samples.engine_with_list_log = Raise AttributeError ∧
  ∀ pid e,
    (λ _ : Z, Return 40%float) pid = Raise e →
    uptime_seconds 100%float (λ _, Return 40%float) Samples.engine_with_list_log
      (is_project_running Samples.engine_with_list_log).1 (Some pid) = None.
Proof.
  refine (status_raises_on_non_object JsonLite.loads 100%float (λ _, Return 40%float)
            Samples.status_of Samples.engine_with_list_log (PList [PInt 1]) _ _ _).
  - vm_compute. reflexivity.
  - reflexivity.
  - discriminate.
Defined.
